(** * degiroapi: a shallow embedding of the brokerage client

    The repository holds two near-identical builds of one client
    ([create] in [degiro.js]):
    - the build with response logging and HTTP-status validation
      (module [Strict] below), and
    - the older build with raw logging and looser validation
      (module [Loose] below).

    Modelling decisions, shared by both builds:
    - JavaScript values are the values [JSON.parse] can produce, plus
      [undefined].  Numbers are restricted to integers ([Z]).
    - Strings are [string] (sequences of 8-bit characters); case mapping
      is the ASCII one.
    - A promise chain is run synchronously: an operation is a function
      from the world (session record, routing-URL record, requests sent
      so far, vendor answers still to come) to an outcome and a world.
      A [throw] inside a [then] callback and a rejected promise are both
      [Rejected].
    - [log] writes to the console only and returns [undefined]; calls to
      it are kept only where the source uses its return value.
    - Time values are local milliseconds since the epoch, for a zone with
      a constant offset (no daylight-saving transitions). *)

From Stdlib Require Import ZArith Ascii String List Lia Bool.
From stdpp Require Import base option gmap strings list pretty.
From Equations Require Import Equations.
Import ListNotations.

Local Open Scope string_scope.
Local Open Scope list_scope.
Local Open Scope Z_scope.

Set Warnings "-register-all".

(** ** JavaScript values *)

Inductive jsval : Type :=
| JUndefined
| JNull
| JBool (b : bool)
| JNum (n : Z)
| JStr (s : string)
| JArr (xs : list jsval)
| JObj (fields : list (string * jsval)).

(** [ToBoolean]. *)
Definition truthy (v : jsval) : bool :=
  match v with
  | JUndefined | JNull => false
  | JBool b => b
  | JNum n => negb (n =? 0)
  | JStr s => negb (String.eqb s "")
  | JArr _ | JObj _ => true
  end.

Definition isArray (v : jsval) : bool :=
  match v with JArr _ => true | _ => false end.

(** [ToString] on the values above; arrays join their elements with a
    comma ([null] and [undefined] elements print as nothing), plain
    objects print as [[object Object]] (an object parsed from JSON is
    taken not to shadow [toString] or [valueOf]). *)
Fixpoint to_string (v : jsval) : string :=
  match v with
  | JUndefined => "undefined"
  | JNull => "null"
  | JBool true => "true"
  | JBool false => "false"
  | JNum n => pretty n
  | JStr s => s
  | JArr xs =>
      (fix join (l : list jsval) : string :=
         match l with
         | [] => ""
         | x :: r =>
             let sx := match x with
                       | JUndefined | JNull => ""
                       | _ => to_string x
                       end in
             match r with
             | [] => sx
             | _ :: _ => sx +:+ "," +:+ join r
             end
         end) xs
  | JObj _ => "[object Object]"
  end.

(** Template-literal interpolation and [ToPropertyKey] are both
    [ToString] on these values. *)
Definition to_property_key (v : jsval) : string := to_string v.

(** Own-property lookup in a parsed object: [JSON.parse] keeps the last
    of several bindings of one name. *)
Fixpoint obj_lookup (k : string) (fields : list (string * jsval)) : option jsval :=
  match fields with
  | [] => None
  | (k', v) :: r =>
      match obj_lookup k r with
      | Some w => Some w
      | None => if String.eqb k k' then Some v else None
      end
  end.

Fixpoint string_nth (n : nat) (s : string) : option ascii :=
  match s, n with
  | EmptyString, _ => None
  | String c _, O => Some c
  | String _ r, S m => string_nth m r
  end.

(** ** Errors and outcomes *)

(** An [Error] message is a concatenation; the pieces keep track of how
    each part was produced. *)
Inductive piece : Type :=
| Lit (s : string)            (* a literal, or a string-typed value *)
| ToStr (v : jsval)           (* string concatenation of a value *)
| Stringify (v : jsval).      (* [JSON.stringify v] *)

Inductive exn : Type :=
| Error (msg : list piece)
| TypeError
| ReferenceError (ident : string)
| SyntaxError                 (* [res.json()] on a body that is not JSON *)
| FetchError.                 (* the transport gave no answer *)

Inductive outcome (A : Type) : Type :=
| Resolved (a : A)
| Rejected (e : exn).
Arguments Resolved {A} a.
Arguments Rejected {A} e.

Definition is_resolved {A} (o : outcome A) : bool :=
  match o with Resolved _ => true | Rejected _ => false end.

(** Property read [v.k] for a name [k] that is not an array index.
    Reading a property of [undefined] or [null] throws. *)
Definition js_get (v : jsval) (k : string) : outcome jsval :=
  match v with
  | JUndefined | JNull => Rejected TypeError
  | JObj fs => Resolved (default JUndefined (obj_lookup k fs))
  | JArr xs => Resolved (if String.eqb k "length" then JNum (Z.of_nat (length xs)) else JUndefined)
  | JStr s => Resolved (if String.eqb k "length" then JNum (Z.of_nat (String.length s)) else JUndefined)
  | JBool _ | JNum _ => Resolved JUndefined
  end.

(** Indexed read [v[i]] for a literal index [i]. *)
Definition js_idx (v : jsval) (i : nat) : outcome jsval :=
  match v with
  | JUndefined | JNull => Rejected TypeError
  | JObj fs => Resolved (default JUndefined (obj_lookup (pretty i) fs))
  | JArr xs => Resolved (nth i xs JUndefined)
  | JStr s => Resolved (match string_nth i s with
                        | Some c => JStr (String c EmptyString)
                        | None => JUndefined
                        end)
  | JBool _ | JNum _ => Resolved JUndefined
  end.

(** The [in] operator: a [TypeError] on anything that is not an object. *)
Definition js_in (k : string) (v : jsval) : outcome bool :=
  match v with
  | JObj fs => Resolved (bool_decide (is_Some (obj_lookup k fs)))
  | JArr xs => Resolved (String.eqb k "length")
  | _ => Rejected TypeError
  end.

(** Loose equality [v == lit] against a string literal that is not a
    numeric literal (all the literals the client compares with are of
    that kind): a number or boolean converts the literal to [NaN], an
    array or object is converted by [ToString]. *)
Definition loose_eq_str (v : jsval) (lit : string) : bool :=
  match v with
  | JStr s => String.eqb s lit
  | JArr _ | JObj _ => String.eqb (to_string v) lit
  | _ => false
  end.

(** ** Strings: the few [String.prototype] methods the client calls *)

Definition lower_ascii (c : ascii) : ascii :=
  let n := nat_of_ascii c in
  if ((65 <=? n) && (n <=? 90))%nat then ascii_of_nat (n + 32) else c.

(** [str.slice(n)] for [0 <= n]. *)
Fixpoint str_drop (n : nat) (s : string) : string :=
  match n, s with
  | O, _ => s
  | S m, EmptyString => EmptyString
  | S m, String _ r => str_drop m r
  end.

(** [str.charAt(0)]. *)
Definition charAt0 (s : string) : string :=
  match s with
  | EmptyString => EmptyString
  | String c _ => String c EmptyString
  end.

Definition toLowerCase (s : string) : string :=
  (fix go (s : string) : string :=
     match s with
     | EmptyString => EmptyString
     | String c r => String (lower_ascii c) (go r)
     end) s.

(** utils.js: [lcFirst = str => str.charAt(0).toLowerCase() + str.slice(1)]. *)
Definition lcFirst (str : string) : string :=
  toLowerCase (charAt0 str) +:+ str_drop 1 str.

(** utils.js: [headerToJSON], a loop [json[key] = value] over the
    name/value pairs of the headers. *)
Definition headerToJSON (headers : list (string * string)) : gmap string string :=
  foldl (fun json '(key, value) => <[key := value]> json) ∅ headers.

(** [str.startsWith(p)]. *)
Fixpoint startsWith (s p : string) : bool :=
  match p, s with
  | EmptyString, _ => true
  | String _ _, EmptyString => false
  | String a p', String b s' => Ascii.eqb a b && startsWith s' p'
  end.

(** [str.includes(c)] for a one-character needle. *)
Fixpoint str_includes (c : ascii) (s : string) : bool :=
  match s with
  | EmptyString => false
  | String a r => Ascii.eqb a c || str_includes c r
  end.

(** [str.split(c)] for a one-character separator. *)
Fixpoint str_split (c : ascii) (s : string) : list string :=
  match s with
  | EmptyString => [EmptyString]
  | String a r =>
      if Ascii.eqb a c then EmptyString :: str_split c r
      else match str_split c r with
           | [] => [String a EmptyString]
           | h :: t => String a h :: t
           end
  end.

(** ** Numbers that may be [NaN] *)

(** [None] is [NaN]. *)
Abbreviation num := (option Z).

Definition digit_of (c : ascii) : option Z :=
  let n := nat_of_ascii c in
  if ((48 <=? n) && (n <=? 57))%nat then Some (Z.of_nat n - 48) else None.

Fixpoint digits_value (acc : Z) (s : string) : num :=
  match s with
  | EmptyString => Some acc
  | String c r =>
      match digit_of c with
      | Some d => digits_value (10 * acc + d) r
      | None => None
      end
  end.

(** [ToNumber] on a string, for the fragment the model covers: the empty
    string is [0], a run of decimal digits is its value.  Every other
    string is mapped to [NaN]; the statements below only apply
    [str_to_num] to strings of the first two kinds. *)
Definition str_to_num (s : string) : num := digits_value 0 s.

(** [a < b] on numbers: [false] as soon as one side is [NaN]. *)
Definition num_lt (a b : num) : bool :=
  match a, b with
  | Some x, Some y => x <? y
  | _, _ => false
  end.

(** ** Dates: the time arithmetic of ECMA-262, section "Date Objects" *)

Module Date.

Definition msPerDay : Z := 86400000.
Definition msPerHour : Z := 3600000.
Definition msPerMinute : Z := 60000.
Definition msPerSecond : Z := 1000.

Definition Day (t : Z) : Z := t / msPerDay.
Definition TimeWithinDay (t : Z) : Z := t mod msPerDay.

Definition DayFromYear (y : Z) : Z :=
  365 * (y - 1970) + (y - 1969) / 4 - (y - 1901) / 100 + (y - 1601) / 400.

Definition DaysInYear (y : Z) : Z := DayFromYear (y + 1) - DayFromYear y.

(** The year [y] with [DayFromYear y <= d < DayFromYear (y + 1)]: the
    estimate from the mean year length is off by at most one. *)
Definition YearFromDay (d : Z) : Z :=
  let y := 1970 + (400 * d) / 146097 in
  if d <? DayFromYear y then y - 1
  else if DayFromYear (y + 1) <=? d then y + 1
  else y.

Definition YearFromTime (t : Z) : Z := YearFromDay (Day t).

Definition InLeapYear (t : Z) : Z := DaysInYear (YearFromTime t) - 365.

Definition DayWithinYear (t : Z) : Z := Day t - DayFromYear (YearFromTime t).

(** Number of days before month [m] (0 = January) in a year with
    [leap] extra days. *)
Definition daysBeforeMonth (leap m : Z) : Z :=
  match m with
  | 0 => 0
  | 1 => 31
  | 2 => 59 + leap
  | 3 => 90 + leap
  | 4 => 120 + leap
  | 5 => 151 + leap
  | 6 => 181 + leap
  | 7 => 212 + leap
  | 8 => 243 + leap
  | 9 => 273 + leap
  | 10 => 304 + leap
  | 11 => 334 + leap
  | _ => 365 + leap
  end.

Fixpoint month_search (fuel : nat) (leap d m : Z) : Z :=
  match fuel with
  | O => m
  | S f => if d <? daysBeforeMonth leap (m + 1) then m
           else month_search f leap d (m + 1)
  end.

Definition MonthFromTime (t : Z) : Z :=
  month_search 11 (InLeapYear t) (DayWithinYear t) 0.

Definition DateFromTime (t : Z) : Z :=
  DayWithinYear t - daysBeforeMonth (InLeapYear t) (MonthFromTime t) + 1.

Definition HourFromTime (t : Z) : Z := (t / msPerHour) mod 24.
Definition MinFromTime (t : Z) : Z := (t / msPerMinute) mod 60.
Definition SecFromTime (t : Z) : Z := (t / msPerSecond) mod 60.
Definition msFromTime (t : Z) : Z := t mod msPerSecond.

Definition MakeTime (h m s ms : Z) : Z :=
  h * msPerHour + m * msPerMinute + s * msPerSecond + ms.

Definition MakeDay (year month date : Z) : Z :=
  let ym := year + month / 12 in
  let mn := month mod 12 in
  DayFromYear ym + daysBeforeMonth (DaysInYear ym - 365) mn + date - 1.

Definition MakeDate (day time : Z) : Z := day * msPerDay + time.

Definition TimeClip (t : Z) : num :=
  if Z.abs t <=? 8640000000000000 then Some t else None.

(** A [Date] object is its time value; [None] is the invalid date. *)
Abbreviation date := (option Z).

(** [new Date(year, month, day)]. *)
Definition construct (year month day : num) : date :=
  match year, month, day with
  | Some y, Some m, Some d =>
      let yr := if (0 <=? y) && (y <=? 99) then 1900 + y else y in
      TimeClip (MakeDate (MakeDay yr m d) (MakeTime 0 0 0 0))
  | _, _, _ => None
  end.

Definition getFullYear (d : date) : num := YearFromTime <$> d.
(** The legacy [getYear]: the full year minus 1900. *)
Definition getYear (d : date) : num := (fun t => YearFromTime t - 1900) <$> d.
Definition getMonth (d : date) : num := MonthFromTime <$> d.
Definition getDate (d : date) : num := DateFromTime <$> d.
Definition getHours (d : date) : num := HourFromTime <$> d.
Definition getMinutes (d : date) : num := MinFromTime <$> d.
Definition getSeconds (d : date) : num := SecFromTime <$> d.
Definition getMilliseconds (d : date) : num := msFromTime <$> d.

Definition setHours (d : date) (hour : num) : date :=
  match d, hour with
  | Some t, Some h =>
      TimeClip (MakeDate (Day t) (MakeTime h (MinFromTime t) (SecFromTime t) (msFromTime t)))
  | _, _ => None
  end.

Definition setMinutes (d : date) (min : num) : date :=
  match d, min with
  | Some t, Some m =>
      TimeClip (MakeDate (Day t) (MakeTime (HourFromTime t) m (SecFromTime t) (msFromTime t)))
  | _, _ => None
  end.

Definition setSeconds (d : date) (sec : num) : date :=
  match d, sec with
  | Some t, Some s =>
      TimeClip (MakeDate (Day t) (MakeTime (HourFromTime t) (MinFromTime t) s (msFromTime t)))
  | _, _ => None
  end.

Definition setMilliseconds (d : date) (ms : num) : date :=
  match d, ms with
  | Some t, Some x =>
      TimeClip (MakeDate (Day t) (MakeTime (HourFromTime t) (MinFromTime t) (SecFromTime t) x))
  | _, _ => None
  end.

(** The time value of a civil date and time of day. *)
Definition civil (y m d hh mm : Z) : Z :=
  MakeDate (MakeDay y m d) (MakeTime hh mm 0 0).

End Date.

(** ** URL encoding: [querystring.stringify] and [encodeURI] *)

Definition hex_digit (n : nat) : ascii :=
  if (n <? 10)%nat then ascii_of_nat (48 + n) else ascii_of_nat (55 + n).

Definition percent_encode (c : ascii) : string :=
  let n := nat_of_ascii c in
  String "%" (String (hex_digit (n / 16)) (String (hex_digit (n mod 16)) EmptyString)).

Definition is_alnum (c : ascii) : bool :=
  let n := nat_of_ascii c in
  (((48 <=? n) && (n <=? 57)) || ((65 <=? n) && (n <=? 90)) || ((97 <=? n) && (n <=? 122)))%nat.

(** Characters both encoders leave alone, besides letters and digits. *)
Definition is_mark (c : ascii) : bool := str_includes c "-_.!~*'()".

(** The reserved characters [encodeURI] keeps. *)
Definition is_uri_reserved (c : ascii) : bool := str_includes c ";,/?:@&=+$#".

Fixpoint escape_with (keep : ascii -> bool) (s : string) : string :=
  match s with
  | EmptyString => EmptyString
  | String c r =>
      (if keep c then String c EmptyString else percent_encode c) +:+ escape_with keep r
  end.

Definition qs_escape : string -> string :=
  escape_with (fun c => is_alnum c || is_mark c).

Definition encodeURI : string -> string :=
  escape_with (fun c => is_alnum c || is_mark c || is_uri_reserved c).

(** [querystring]'s view of a value: strings, numbers and booleans print,
    everything else is the empty string. *)
Definition stringifyPrimitive (v : jsval) : string :=
  match v with
  | JStr _ | JNum _ | JBool _ => to_string v
  | _ => ""
  end.

Fixpoint join_with (sep : string) (l : list string) : string :=
  match l with
  | [] => ""
  | [x] => x
  | x :: r => x +:+ sep +:+ join_with sep r
  end.

(** [querystring.stringify(obj)]: an array value repeats its key. *)
Definition qs_stringify (obj : list (string * jsval)) : string :=
  join_with "&"
    (flat_map (fun '(k, v) =>
                 let ks := qs_escape k +:+ "=" in
                 match v with
                 | JArr xs => map (fun x => ks +:+ qs_escape (stringifyPrimitive x)) xs
                 | _ => [ks +:+ qs_escape (stringifyPrimitive v)]
                 end) obj).

(** [lodash.isNil] and [omitBy(obj, isNil)]. *)
Definition isNil (v : jsval) : bool :=
  match v with JUndefined | JNull => true | _ => false end.

Definition omitBy_isNil (obj : list (string * jsval)) : list (string * jsval) :=
  List.filter (fun '(_, v) => negb (isNil v)) obj.

(** ** The world an operation runs in *)

Module Session.
(** [data] is the property the validating build adds in
    [getClientInfo]; it is absent ([undefined]) until then. *)
Record t : Type := mk {
  id : jsval;
  account : jsval;
  userToken : jsval;
  clientInfo : jsval;
  data : jsval
}.
End Session.

Module Urls.
Record t : Type := mk {
  paUrl : jsval;
  productSearchUrl : jsval;
  productTypesUrl : jsval;
  reportingUrl : jsval;
  tradingUrl : jsval;
  vwdQuotecastServiceUrl : jsval
}.
End Urls.

(** A request as handed to [fetch]; [body] holds the value whose
    [JSON.stringify] is sent. *)
Record Request : Type := mkRequest {
  method : string;
  url : string;
  headers : list (string * string);
  body : option jsval
}.

(** An answer of the vendor.  [cookies] is what [cookie.parse] extracts
    from the [set-cookie] header (nothing when the header is absent);
    [json] is [None] when the body is not JSON. *)
Record Response : Type := mkResponse {
  status : Z;
  statusText : string;
  cookies : list (string * string);
  json : option jsval
}.

(** [res.ok] of node-fetch. *)
Definition ok (r : Response) : bool := (200 <=? status r) && (status r <? 300).

Record World : Type := mkWorld {
  session : Session.t;
  urls : Urls.t;
  sent : list Request;
  inbox : list Response;
  clock : Z
}.

Definition set_session (f : Session.t -> Session.t) (w : World) : World :=
  mkWorld (f (session w)) (urls w) (sent w) (inbox w) (clock w).

Definition set_urls (u : Urls.t) (w : World) : World :=
  mkWorld (session w) u (sent w) (inbox w) (clock w).

(** ** Operations: state passing with rejection *)

Definition M (A : Type) : Type := World -> outcome A * World.

Definition ret {A} (a : A) : M A := fun w => (Resolved a, w).
Definition throw {A} (e : exn) : M A := fun w => (Rejected e, w).

(** [p.then(k)]: [k] runs only when [p] resolves. *)
Definition bind {A B} (m : M A) (k : A -> M B) : M B :=
  fun w => match m w with
           | (Resolved a, w') => k a w'
           | (Rejected e, w') => (Rejected e, w')
           end.

Definition lift {A} (o : outcome A) : M A := fun w => (o, w).

Declare Scope js_scope.
Delimit Scope js_scope with js.
Notation "x <~ m ;; k" := (bind m (fun x => k))
  (at level 90, m at level 80, right associativity) : js_scope.
Notation "m ;;; k" := (bind m (fun _ => k))
  (at level 90, right associativity) : js_scope.
Local Open Scope js_scope.

(** Sequencing of plain outcomes (synchronous code that may throw). *)
Definition obind {A B} (o : outcome A) (k : A -> outcome B) : outcome B :=
  match o with
  | Resolved a => k a
  | Rejected e => Rejected e
  end.
Notation "x <- o ;; k" := (obind o (fun x => k))
  (at level 90, o at level 80, right associativity) : js_scope.

(** [arr.map(f)] and [arr.forEach(f)] with a callback that may throw. *)
Fixpoint omap {A B} (f : A -> outcome B) (l : list A) : outcome (list B) :=
  match l with
  | [] => Resolved []
  | x :: r => y <- f x ;; ys <- omap f r ;; Resolved (y :: ys)
  end.

Fixpoint ofold {A S} (f : S -> A -> outcome S) (s : S) (l : list A) : outcome S :=
  match l with
  | [] => Resolved s
  | x :: r => s' <- f s x ;; ofold f s' r
  end.

Definition get_session : M Session.t := fun w => (Resolved (session w), w).
Definition get_urls : M Urls.t := fun w => (Resolved (urls w), w).
Definition get_clock : M Z := fun w => (Resolved (clock w), w).
Definition modify_session (f : Session.t -> Session.t) : M unit :=
  fun w => (Resolved tt, set_session f w).
Definition put_urls (u : Urls.t) : M unit :=
  fun w => (Resolved tt, set_urls u w).

(** [fetch]: the request goes out, the next answer of the vendor comes
    back; with no answer left the transport fails. *)
Definition fetch (rq : Request) : M Response :=
  fun w =>
    let w' := mkWorld (session w) (urls w) (sent w ++ [rq]) (tl (inbox w)) (clock w) in
    match inbox w with
    | [] => (Rejected FetchError, w')
    | r :: _ => (Resolved r, w')
    end.

(** [res.json()]. *)
Definition res_json (r : Response) : M jsval :=
  match json r with
  | Some v => ret v
  | None => throw SyntaxError
  end.

(** The reference to an identifier no enclosing scope declares. *)
Definition unbound {A} (ident : string) : M A := throw (ReferenceError ident).

Definition GET (u : string) : Request := mkRequest "GET" u [] None.

(** The constants module ([./constants]) is not part of the sources at
    hand; the two values the client reads from it are parameters. *)
Record Constants : Type := mkConstants {
  TimeTypes_day : jsval;
  ProductTypes_all : jsval
}.

(** The options of [create]. *)
Record Options : Type := mkOptions {
  username : jsval;
  password : jsval;
  oneTimePassword : jsval;
  sessionId : jsval;
  opt_account : jsval
}.

Definition BASE_TRADER_URL : string := "https://trader.degiro.nl".
Definition VWD_URL : string := "https://degiro.quotecast.vwdservices.com/CORS/".

(** The state [create] sets up: the session from the options, the
    routing URLs all [null]. *)
Definition create (o : Options) (answers : list Response) (now : Z) : World :=
  mkWorld (Session.mk (sessionId o) (opt_account o) JNull JNull JUndefined)
          (Urls.mk JNull JNull JNull JNull JNull JNull)
          [] answers now.

(** ** Reshaping shared by the two builds *)

Definition bad_result {A} (payload : jsval) : outcome A :=
  Rejected (Error [Lit "Bad result: "; Stringify payload]).

(** *** Cash funds *)

(** [lodash.fromPairs]: later pairs overwrite earlier ones. *)
Definition fromPairs (pairs : list (jsval * jsval)) : gmap string jsval :=
  foldl (fun m '(k, v) => <[to_property_key k := v]> m) ∅ pairs.

(** [lodash.omit(obj, names)]. *)
Definition omit (obj : gmap string jsval) (names : list string) : gmap string jsval :=
  foldl (fun m k => delete k m) obj names.

(** The callback [({name, value}) => [name, value]]. *)
Definition pair_of (p : jsval) : outcome (jsval * jsval) :=
  name <- js_get p "name" ;;
  value <- js_get p "value" ;;
  Resolved (name, value).

(** The callback [({value}) => omit(fromPairs(value.map(...)), [...])]. *)
Definition cashFundsEntry (e : jsval) : outcome (gmap string jsval) :=
  value <- js_get e "value" ;;
  match value with
  | JArr ps =>
      pairs <- omap pair_of ps ;;
      Resolved (omit (fromPairs pairs) ["handling"; "currencyCode"])
  | _ => Rejected TypeError
  end.

(** The [then] callback of [getCashFunds]; the result is the [cashFunds]
    property of the object it returns. *)
Definition reshapeCashFunds (data : jsval) : outcome (list (gmap string jsval)) :=
  cf <- js_get data "cashFunds" ;;
  if truthy cf then
    value <- js_get cf "value" ;;
    match value with
    | JArr entries => omap cashFundsEntry entries
    | _ => bad_result data
    end
  else bad_result data.

(** The [then] callback of [getPortfolio]. *)
Definition reshapePortfolio (data : jsval) : outcome (list jsval) :=
  p <- js_get data "portfolio" ;;
  if truthy p then
    value <- js_get p "value" ;;
    match value with
    | JArr rows => Resolved rows
    | _ => bad_result data
    end
  else bad_result data.

(** *** Orders *)

(** A property of a processed order: a [Date] object or a vendor value. *)
Inductive field : Type :=
| FDate (d : Date.date)
| FVal (v : jsval).

(** [ToNumber(parts[i])]: a missing part is [undefined], hence [NaN]. *)
Definition part_num (parts : list string) (i : nat) : num :=
  match nth_error parts i with
  | Some s => str_to_num s
  | None => None
  end.

(** The branch taken when the field contains [':'] :
    [new Date()], then [setHours], [setMinutes], [setSeconds(0)],
    [setMilliseconds(0)]. *)
Definition parseTimeOfDay (now : Z) (value : string) : Date.date :=
  let d0 := Some now in
  let d1 := Date.setHours d0 (part_num (str_split ":" value) 0) in
  let d2 := Date.setMinutes d1 (part_num (str_split ":" value) 1) in
  let d3 := Date.setSeconds d2 (Some 0) in
  Date.setMilliseconds d3 (Some 0).

(** The branch taken when the field contains ['/'] (and no [':']). *)
Definition parseDayMonth (now : Z) (value : string) : Date.date :=
  let currentDate := Some now in
  let month := part_num (str_split "/" value) 1 in
  Date.construct
    (if num_lt (Date.getMonth currentDate) month
     then (fun y => y - 1) <$> Date.getYear currentDate
     else Date.getYear currentDate)
    month
    (part_num (str_split "/" value) 0).

(** [arr.includes(c)] on an array, for a one-character string [c]. *)
Definition arr_includes (c : string) (xs : list jsval) : bool :=
  existsb (fun x => match x with JStr s => String.eqb s c | _ => false end) xs.

(** The value stored for a row named ['date']. *)
Definition parseOrderDate (now : Z) (value : jsval) : outcome Date.date :=
  let unexpected := Rejected (Error [Lit "Unexpected date format: "; ToStr value]) in
  match value with
  | JStr s =>
      if str_includes ":" s then Resolved (parseTimeOfDay now s)
      else if str_includes "/" s then Resolved (parseDayMonth now s)
      else unexpected
  | JArr xs =>
      (* arrays have [includes] but no [split] *)
      if arr_includes ":" xs then Rejected TypeError
      else if arr_includes "/" xs then Rejected TypeError
      else unexpected
  | _ => Rejected TypeError
  end.

(** The body of [order.value.forEach(function(orderRow) {...})]. *)
Definition orderRow_step (now : Z) (o : gmap string field) (orderRow : jsval)
  : outcome (gmap string field) :=
  name <- js_get orderRow "name" ;;
  value <- js_get orderRow "value" ;;
  if loose_eq_str name "date" then
    d <- parseOrderDate now value ;;
    Resolved (<[to_property_key name := FDate d]> o)
  else
    Resolved (<[to_property_key name := FVal value]> o).

Definition processOrder (now : Z) (order : jsval) : outcome (gmap string field) :=
  id <- js_get order "id" ;;
  value <- js_get order "value" ;;
  match value with
  | JArr rows => ofold (orderRow_step now) {[ "id" := FVal id ]} rows
  | _ => Rejected TypeError
  end.

Definition processOrders (now : Z) (orders : list jsval) : outcome (list (gmap string field)) :=
  omap (processOrder now) orders.

Record Orders : Type := mkOrders {
  openOrders : list (gmap string field);
  cancelledOrders : list (gmap string field);
  completedOrders : list (gmap string field)
}.

(** [data[k] && Array.isArray(data[k].value)], returning the array. *)
Definition array_under (data : jsval) (k : string) : outcome (option (list jsval)) :=
  v <- js_get data k ;;
  if truthy v then
    x <- js_get v "value" ;;
    Resolved (match x with JArr l => Some l | _ => None end)
  else Resolved None.

(** The [then] callback of [getOrders]. *)
Definition reshapeOrders (now : Z) (data : jsval) : outcome Orders :=
  a <- array_under data "orders" ;;
  b <- array_under data "historicalOrders" ;;
  c <- array_under data "transactions" ;;
  match a, b, c with
  | Some orders, Some historicalOrders, Some transactions =>
      o1 <- processOrders now orders ;;
      o2 <- processOrders now historicalOrders ;;
      o3 <- processOrders now transactions ;;
      Resolved (mkOrders o1 o2 o3)
  | _, _, _ => bad_result data
  end.

(** *** Quote rows *)

(** The two locals of [checkData]: the result object [prices] and the
    array [keys], used as a map from the property name of a stream key to
    a field name.  Stream keys are numbers on the wire; the names of
    [Array.prototype] members and [length] are not treated specially. *)
Record QuoteState : Type := mkQuoteState {
  prices : gmap string jsval;
  keys : gmap string string
}.

(** [keys[k]] used as a property name. *)
Definition resolve_key (keys : gmap string string) (k : jsval) : string :=
  default "undefined" (keys !! to_property_key k).

(** The field name an ['a_req'] row announces. *)
Definition fieldName (issueId v0 : string) : string :=
  lcFirst (str_drop (String.length issueId + 1) v0).

(** The body of [res.forEach(row => {...})]. *)
Definition row_step (issueId : string) (st : QuoteState) (row : jsval) : outcome QuoteState :=
  m <- js_get row "m" ;;
  if loose_eq_str m "a_req" then
    v <- js_get row "v" ;;
    v0 <- js_idx v 0 ;;
    match v0 with
    | JStr s =>
        if startsWith s issueId then
          v1 <- js_idx v 1 ;;
          let key := fieldName issueId s in
          Resolved (mkQuoteState (<[key := JNull]> (prices st))
                                 (<[to_property_key v1 := key]> (keys st)))
        else Resolved st
    | _ => Rejected TypeError
    end
  else if loose_eq_str m "un" || loose_eq_str m "us" then
    v <- js_get row "v" ;;
    v0 <- js_idx v 0 ;;
    v1 <- js_idx v 1 ;;
    Resolved (mkQuoteState (<[resolve_key (keys st) v0 := v1]> (prices st)) (keys st))
  else Resolved st.

Definition processRows (issueId : string) (rows : list jsval) : outcome QuoteState :=
  ofold (row_step issueId) (mkQuoteState ∅ ∅) rows.

(** [res.length == 1 && res[0].m == 'h']. *)
Definition heartbeat_only (rows : list jsval) : outcome bool :=
  match rows with
  | [r0] => m <- js_get r0 "m" ;; Resolved (loose_eq_str m "h")
  | _ => Resolved false
  end.

(** What [checkData] finds in a poll answer, apart from the decision to
    retry. *)
Inductive verdict : Type :=
| Heartbeat
| Rows (st : QuoteState).

Definition inspect (issueId : string) (res : jsval) : outcome verdict :=
  match res with
  | JArr rows =>
      hb <- heartbeat_only rows ;;
      if hb then Resolved Heartbeat
      else st <- processRows issueId rows ;; Resolved (Rows st)
  | _ => bad_result res
  end.

Definition tried_3_times (res : jsval) : exn :=
  Error [Lit "Tried 3 times to get data, but nothing was returned: "; Stringify res].

(** [getAskBidPrice], over the two places where the builds differ: how
    one round (session request, subscription, poll) is made, and what is
    checked before [prices] is returned. *)
Section QuotePoller.
Variable round : string -> M jsval.
Variable finish : jsval -> gmap string jsval -> outcome (gmap string jsval).

Equations? askBid (issueId : string) (timesChecked : Z) (w : World)
  : outcome (gmap string jsval) * World by wf (Z.to_nat (4 - timesChecked)) lt :=
  askBid issueId timesChecked w with round issueId w => {
    | (Rejected e, w') := (Rejected e, w');
    | (Resolved res, w') with inspect issueId res => {
        | Rejected e := (Rejected e, w');
        | Resolved (Rows st) := (finish res (prices st), w');
        | Resolved Heartbeat with Z_le_dec (timesChecked + 1) 3 => {
            | left _ := askBid issueId (timesChecked + 1) w';
            | right _ := (Rejected (tried_3_times res), w') } } }.
Proof. lia. Qed.
End QuotePoller.

Definition json_headers : list (string * string) :=
  [("Content-Type", "application/json;charset=UTF-8")].

Definition vwd_headers : list (string * string) :=
  [("Origin", "https://trader.degiro.nl")].

(** The body of the subscription request. *)
Definition controlData (issueId : string) : jsval :=
  JObj [("controlData",
         JStr ("req(" +:+ issueId +:+ ".BidPrice);req(" +:+ issueId +:+ ".AskPrice);req("
               +:+ issueId +:+ ".LastPrice);req(" +:+ issueId +:+ ".LastTime);"))].

(** The body of the login request. *)
Definition loginParams (o : Options) : list (string * jsval) :=
  [("username", username o); ("password", password o);
   ("isRedirectToMobile", JBool false); ("loginButtonUniversal", JStr "");
   ("queryParams", JObj [("reason", JStr "session_expired")])].

(** What [checkOrder] hands to [confirmOrder]. *)
Record CheckedOrder : Type := mkCheckedOrder {
  order : jsval;
  confirmationId : jsval
}.

(** The object [setOrder] builds from its argument; [timeType] defaults
    to [TimeTypes.day]. *)
Definition orderOf (K : Constants) (arg : jsval) : outcome jsval :=
  buySell <- js_get arg "buySell" ;;
  orderType <- js_get arg "orderType" ;;
  productId <- js_get arg "productId" ;;
  size <- js_get arg "size" ;;
  timeType <- js_get arg "timeType" ;;
  price <- js_get arg "price" ;;
  stopPrice <- js_get arg "stopPrice" ;;
  Resolved (JObj [("buySell", buySell); ("orderType", orderType);
                  ("productId", productId); ("size", size);
                  ("timeType", match timeType with
                               | JUndefined => TimeTypes_day K
                               | _ => timeType
                               end);
                  ("price", price); ("stopPrice", stopPrice)]).

(** The query of [searchProduct]. *)
Definition searchOptions (K : Constants) (arg : jsval) : outcome (list (string * jsval)) :=
  searchText <- js_get arg "text" ;;
  productType <- js_get arg "productType" ;;
  sortColumn <- js_get arg "sortColumn" ;;
  sortType <- js_get arg "sortType" ;;
  limit <- js_get arg "limit" ;;
  offset <- js_get arg "offset" ;;
  let dflt (v d : jsval) := match v with JUndefined => d | _ => v end in
  Resolved [("searchText", searchText);
            ("productTypeId", dflt productType (ProductTypes_all K));
            ("sortColumns", sortColumn); ("sortTypes", sortType);
            ("limit", dflt limit (JNum 7)); ("offset", dflt offset (JNum 0))].

(** [id.toString()] in [getProductsByIds]. *)
Definition id_toString (v : jsval) : outcome jsval :=
  match v with
  | JUndefined | JNull => Rejected TypeError
  | _ => Resolved (JStr (to_string v))
  end.

Definition idsOf (ids : jsval) : list jsval :=
  match ids with JArr l => l | _ => [ids] end.

(** The paths under the trading URL. *)
Definition trading_url (s : Session.t) (u : Urls.t) (path : string) : string :=
  to_string (Urls.tradingUrl u) +:+ path +:+ ";jsessionid=" +:+ to_string (Session.id s)
  +:+ "?intAccount=" +:+ to_string (Session.account s)
  +:+ "&sessionId=" +:+ to_string (Session.id s).

(** The six assignments of [updateConfig]. *)
Definition urlsOf (data : jsval) : outcome Urls.t :=
  a <- js_get data "paUrl" ;;
  b <- js_get data "productSearchUrl" ;;
  c <- js_get data "productTypesUrl" ;;
  d <- js_get data "reportingUrl" ;;
  e <- js_get data "tradingUrl" ;;
  f <- js_get data "vwdQuotecastServiceUrl" ;;
  Resolved (Urls.mk a b c d e f).

(** [cookies.JSESSIONID]: the first cookie of that name. *)
Fixpoint cookie (name : string) (cs : list (string * string)) : jsval :=
  match cs with
  | [] => JUndefined
  | (k, v) :: r => if String.eqb k name then JStr v else cookie name r
  end.

Definition set_id (v : jsval) (s : Session.t) : Session.t :=
  Session.mk v (Session.account s) (Session.userToken s) (Session.clientInfo s) (Session.data s).

(** ** The build with HTTP-status validation *)

Module Strict.

(** [checkSuccess(res, json, operation)]. *)
Definition checkSuccess (res : Response) (json : jsval) : outcome jsval :=
  if ok res then Resolved json
  else
    has <- js_in "errors" json ;;
    if has : bool then
      errors <- js_get json "errors" ;;
      e0 <- js_idx errors 0 ;;
      text <- js_get e0 "text" ;;
      Rejected (Error (match text with JUndefined => [] | _ => [ToStr text] end))
    else
      Rejected (Error [ToStr (JNum (status res)); Lit " - "; Lit (statusText res)]).

(** [fetch(...).then(res => res.json().then(json => checkSuccess(res, json, op)))]. *)
Definition exchange (rq : Request) : M jsval :=
  res <~ fetch rq ;;
  json <~ res_json res ;;
  lift (checkSuccess res json).

(** [getData(options, object)]; [object] only names the call in the log. *)
Definition getData (options : list (string * jsval)) : M jsval :=
  s <~ get_session ;;
  u <~ get_urls ;;
  exchange (GET (to_string (Urls.tradingUrl u) +:+ "v5/update/"
                 +:+ to_string (Session.account s) +:+ ";jsessionid="
                 +:+ to_string (Session.id s) +:+ "?" +:+ qs_stringify options)).

(** The three fetchers over [getData]; each resolves to the content of
    the object its [then] callback returns. *)
Definition getCashFunds : M (list (gmap string jsval)) :=
  data <~ getData [("cashFunds", JNum 0)] ;;
  lift (reshapeCashFunds data).

Definition getPortfolio : M (list jsval) :=
  data <~ getData [("portfolio", JNum 0)] ;;
  lift (reshapePortfolio data).

Definition getOrders : M Orders :=
  data <~ getData [("orders", JNum 0); ("historicalOrders", JNum 0); ("transactions", JNum 0)] ;;
  now <~ get_clock ;;
  lift (reshapeOrders now data).

Definition requestVwdSession : M jsval :=
  s <~ get_session ;;
  exchange (mkRequest "POST"
              (VWD_URL +:+ "request_session?version=1.0.20170315&userToken="
               +:+ to_string (Session.userToken s))
              vwd_headers
              (Some (JObj [("referrer", JStr "https://trader.degiro.nl")]))).

(** One round of [getAskBidPrice]: a fresh quote session, the
    subscription (whose answer is not looked at), the poll. *)
Definition round (issueId : string) : M jsval :=
  vwdSession <~ requestVwdSession ;;
  sid <~ lift (js_get vwdSession "sessionId") ;;
  fetch (mkRequest "POST" (VWD_URL +:+ to_string sid) vwd_headers (Some (controlData issueId))) ;;;
  exchange (GET (VWD_URL +:+ to_string sid)).

(** The completeness check is commented out in this build. *)
Definition finish (res : jsval) (p : gmap string jsval) : outcome (gmap string jsval) :=
  Resolved p.

(** [getAskBidPrice(issueId, timesChecked = 0)]. *)
Definition getAskBidPrice (issueId : string) (timesChecked : Z) : M (gmap string jsval) :=
  askBid round finish issueId timesChecked.

Definition getTasks : M jsval :=
  s <~ get_session ;;
  u <~ get_urls ;;
  exchange (GET (to_string (Urls.paUrl u) +:+ "clienttasks?intAccount="
                 +:+ to_string (Session.account s) +:+ "&sessionId="
                 +:+ to_string (Session.id s))).

Definition getOrdersHistory (fromDate toDate : jsval) : M jsval :=
  s <~ get_session ;;
  u <~ get_urls ;;
  exchange (GET (encodeURI
                   (to_string (Urls.reportingUrl u) +:+ "v4/order-history?intAccount="
                    +:+ to_string (Session.account s) +:+ "&fromDate=" +:+ to_string fromDate
                    +:+ "&toDate=" +:+ to_string toDate
                    +:+ "&sessionId=" +:+ to_string (Session.id s)))).

Definition getTransactions (fromDate toDate groupByOrder : jsval) : M jsval :=
  s <~ get_session ;;
  u <~ get_urls ;;
  exchange (GET (encodeURI
                   (to_string (Urls.reportingUrl u) +:+ "v4/transactions?intAccount="
                    +:+ to_string (Session.account s) +:+ "&fromDate=" +:+ to_string fromDate
                    +:+ "&toDate=" +:+ to_string toDate
                    +:+ "&groupTransactionsByOrder=" +:+ to_string groupByOrder
                    +:+ "&sessionId=" +:+ to_string (Session.id s)))).

(** [getClientInfo]: the account, the user token and the new property
    [data] of the session are assigned once [json.data] has been read. *)
Definition getClientInfo : M jsval :=
  s <~ get_session ;;
  u <~ get_urls ;;
  json <~ exchange (GET (to_string (Urls.paUrl u) +:+ "client?sessionId="
                         +:+ to_string (Session.id s))) ;;
  data <~ lift (js_get json "data") ;;
  intAccount <~ lift (js_get data "intAccount") ;;
  id <~ lift (js_get data "id") ;;
  modify_session (fun s => Session.mk (Session.id s) intAccount id (Session.clientInfo s) data) ;;;
  ret data.

(** [updateConfig]: the six routing URLs are assigned from [json.data];
    the callback returns nothing. *)
Definition updateConfig : M jsval :=
  s <~ get_session ;;
  json <~ exchange (mkRequest "GET" (BASE_TRADER_URL +:+ "/login/secure/config")
                      [("Cookie", "JSESSIONID=" +:+ to_string (Session.id s) +:+ ";")] None) ;;
  data <~ lift (js_get json "data") ;;
  u <~ lift (urlsOf data) ;;
  put_urls u ;;;
  ret JUndefined.

(** [sendLoginRequest]: the session id is assigned from the cookie
    before [checkSuccess] runs; then the chain
    [.then(updateConfig).then(getClientInfo).then(() => session)]. *)
Definition sendLoginRequest (url : string) (params : jsval) : M Session.t :=
  res <~ fetch (mkRequest "POST" url [("Content-Type", "application/json")] (Some params)) ;;
  json <~ res_json res ;;
  modify_session (set_id (cookie "JSESSIONID" (cookies res))) ;;;
  lift (checkSuccess res json) ;;;
  s <~ get_session ;;
  (if truthy (Session.id s) then ret tt else throw (Error [Lit "login nok"])) ;;;
  updateConfig ;;;
  getClientInfo ;;;
  get_session.

Definition login (o : Options) : M Session.t :=
  if truthy (oneTimePassword o) then
    sendLoginRequest (BASE_TRADER_URL +:+ "/login/secure/login" +:+ "/totp")
      (JObj (loginParams o ++ [("oneTimePassword", oneTimePassword o)]))
  else
    sendLoginRequest (BASE_TRADER_URL +:+ "/login/secure/login") (JObj (loginParams o)).

Definition searchProduct (K : Constants) (arg : jsval) : M jsval :=
  options <~ lift (searchOptions K arg) ;;
  s <~ get_session ;;
  u <~ get_urls ;;
  exchange (GET (to_string (Urls.productSearchUrl u) +:+ "v5/products/lookup?intAccount="
                 +:+ to_string (Session.account s) +:+ "&sessionId="
                 +:+ to_string (Session.id s) +:+ "&"
                 +:+ qs_stringify (omitBy_isNil options))).

(** [deleteOrder(orderId)]: the answer goes through [checkSuccess] and
    nothing else. *)
Definition deleteOrder (orderId : jsval) : M jsval :=
  s <~ get_session ;;
  u <~ get_urls ;;
  exchange (mkRequest "DELETE" (trading_url s u ("v5/order/" +:+ to_string orderId))
              json_headers None).

(** [checkOrder(order)]; the first line stands for the destructuring of
    [order], which throws on [null] and [undefined]. *)
Definition checkOrder (order : jsval) : M CheckedOrder :=
  lift (js_get order "buySell") ;;;
  s <~ get_session ;;
  u <~ get_urls ;;
  json <~ exchange (mkRequest "POST" (trading_url s u "v5/checkOrder") json_headers (Some order)) ;;
  data <~ lift (js_get json "data") ;;
  confirmationId <~ lift (js_get data "confirmationId") ;;
  ret (mkCheckedOrder order confirmationId).

(** [confirmOrder({order, confirmationId})]; resolves to the [orderId]
    of the object it returns. *)
Definition confirmOrder (c : CheckedOrder) : M jsval :=
  s <~ get_session ;;
  u <~ get_urls ;;
  json <~ exchange (mkRequest "POST"
                      (trading_url s u ("v5/order/" +:+ to_string (confirmationId c)))
                      json_headers (Some (order c))) ;;
  data <~ lift (js_get json "data") ;;
  lift (js_get data "orderId").

(** [setOrder(options) = checkOrder({...}).then(confirmOrder)]. *)
Definition setOrder (K : Constants) (arg : jsval) : M jsval :=
  o <~ lift (orderOf K arg) ;;
  bind (checkOrder o) confirmOrder.

Definition getProductsByIds (ids : jsval) : M jsval :=
  s <~ get_session ;;
  u <~ get_urls ;;
  body <~ lift (omap id_toString (idsOf ids)) ;;
  exchange (mkRequest "POST"
              (to_string (Urls.productSearchUrl u) +:+ "v5/products/info?intAccount="
               +:+ to_string (Session.account s) +:+ "&sessionId="
               +:+ to_string (Session.id s))
              [("Content-Type", "application/json")] (Some (JArr body))).

End Strict.

(** ** The build with raw logging and looser validation *)

(** [log(...)]: console output, and [undefined] for a value. *)
Definition log (args : list jsval) : jsval := JUndefined.

(** Loose equality [v == 0].  A string is compared through
    [str_to_num]. *)
Definition loose_eq_zero (v : jsval) : bool :=
  match v with
  | JNum n => n =? 0
  | JBool b => negb b
  | JStr s => bool_decide (str_to_num s = Some 0)
  | JArr _ | JObj _ => bool_decide (str_to_num (to_string v) = Some 0)
  | JUndefined | JNull => false
  end.

Module Loose.

(** [checkSuccess(res)]: [res.status !== 0] is a strict comparison. *)
Definition checkSuccess (res : jsval) : outcome jsval :=
  st <- js_get res "status" ;;
  match st with
  | JNum 0 => Resolved res
  | _ =>
      message <- js_get res "message" ;;
      Rejected (Error (match message with JUndefined => [] | _ => [ToStr message] end))
  end.

(** [fetch(...).then(res => res.json())]. *)
Definition exchange (rq : Request) : M jsval :=
  res <~ fetch rq ;;
  res_json res.

(** [getData]: the chain ends in [.then(res => log(...))]. *)
Definition getData (options : list (string * jsval)) : M jsval :=
  s <~ get_session ;;
  u <~ get_urls ;;
  res <~ exchange (GET (to_string (Urls.tradingUrl u) +:+ "v5/update/"
                        +:+ to_string (Session.account s) +:+ ";jsessionid="
                        +:+ to_string (Session.id s) +:+ "?" +:+ qs_stringify options)) ;;
  ret (log [JStr "getData response:"; res]).

Definition getCashFunds : M (list (gmap string jsval)) :=
  data <~ getData [("cashFunds", JNum 0)] ;;
  lift (reshapeCashFunds data).

Definition getPortfolio : M (list jsval) :=
  data <~ getData [("portfolio", JNum 0)] ;;
  lift (reshapePortfolio data).

Definition getOrders : M Orders :=
  data <~ getData [("orders", JNum 0); ("historicalOrders", JNum 0); ("transactions", JNum 0)] ;;
  now <~ get_clock ;;
  lift (reshapeOrders now data).

Definition requestVwdSession : M jsval :=
  s <~ get_session ;;
  res <~ exchange (mkRequest "POST"
                     (VWD_URL +:+ "request_session?version=1.0.20170315&userToken="
                      +:+ to_string (Session.userToken s))
                     vwd_headers
                     (Some (JObj [("referrer", JStr "https://trader.degiro.nl")]))) ;;
  ret (log [JStr "requestVwdSession response:"; res]).

(** One round.  The chain after the subscription is built with
    [.then(log('getAskBidPrice response:', JSON.stringify(res)))],
    where no [res] is in scope. *)
Definition round (issueId : string) : M jsval :=
  vwdSession <~ requestVwdSession ;;
  sid <~ lift (js_get vwdSession "sessionId") ;;
  fetch (mkRequest "POST" (VWD_URL +:+ to_string sid) vwd_headers (Some (controlData issueId))) ;;;
  (unbound "res" : M jsval) ;;;
  exchange (GET (VWD_URL +:+ to_string sid)).

(** [typeof p[k] == 'undefined']. *)
Definition missing (p : gmap string jsval) (k : string) : bool :=
  match p !! k with
  | None | Some JUndefined => true
  | Some _ => false
  end.

Definition finish (res : jsval) (p : gmap string jsval) : outcome (gmap string jsval) :=
  if missing p "bidPrice" || missing p "askPrice" || missing p "lastPrice" || missing p "lastTime"
  then Rejected (Error [Lit "Couldn't find all requested info: "; Stringify res])
  else Resolved p.

Definition getAskBidPrice (issueId : string) (timesChecked : Z) : M (gmap string jsval) :=
  askBid round finish issueId timesChecked.

Definition getClientInfo : M jsval :=
  s <~ get_session ;;
  u <~ get_urls ;;
  clientInfo <~ exchange (GET (to_string (Urls.paUrl u) +:+ "client?sessionId="
                               +:+ to_string (Session.id s))) ;;
  data <~ lift (js_get clientInfo "data") ;;
  intAccount <~ lift (js_get data "intAccount") ;;
  id <~ lift (js_get data "id") ;;
  modify_session (fun s => Session.mk (Session.id s) intAccount id data (Session.data s)) ;;;
  ret data.

Definition updateConfig : M jsval :=
  s <~ get_session ;;
  res <~ exchange (mkRequest "GET" (BASE_TRADER_URL +:+ "/login/secure/config")
                     [("Cookie", "JSESSIONID=" +:+ to_string (Session.id s) +:+ ";")] None) ;;
  data <~ lift (js_get res "data") ;;
  u <~ lift (urlsOf data) ;;
  put_urls u ;;;
  ret JUndefined.

(** [sendLoginRequest]: only the cookie is looked at. *)
Definition sendLoginRequest (url : string) (params : jsval) : M Session.t :=
  res <~ fetch (mkRequest "POST" url [("Content-Type", "application/json")] (Some params)) ;;
  modify_session (set_id (cookie "JSESSIONID" (cookies res))) ;;;
  s <~ get_session ;;
  (if truthy (Session.id s) then ret tt else throw (Error [Lit "login nok"])) ;;;
  updateConfig ;;;
  getClientInfo ;;;
  get_session.

Definition login (o : Options) : M Session.t :=
  if truthy (oneTimePassword o) then
    sendLoginRequest (BASE_TRADER_URL +:+ "/login/secure/login" +:+ "/totp")
      (JObj (loginParams o ++ [("oneTimePassword", oneTimePassword o)]))
  else
    sendLoginRequest (BASE_TRADER_URL +:+ "/login/secure/login") (JObj (loginParams o)).

(** The [then] callback of [deleteOrder]. *)
Definition deleted (res : jsval) : outcome jsval :=
  st <- js_get res "status" ;;
  statusText <- js_get res "statusText" ;;
  if loose_eq_zero st && loose_eq_str statusText "success"
  then Resolved (JBool true)
  else Rejected (Error [Lit "delete order failed"]).

(** [deleteOrder] builds its request with [body: JSON.stringify(params)];
    no [params] is declared in any enclosing scope, so the reference
    throws before [fetch] is called. *)
Definition deleteOrder (orderId : jsval) : M jsval :=
  s <~ get_session ;;
  u <~ get_urls ;;
  params <~ (unbound "params" : M jsval) ;;
  res <~ exchange (mkRequest "DELETE" (trading_url s u ("v5/order/" +:+ to_string orderId))
                     json_headers (Some params)) ;;
  lift (deleted res).

(** [checkOrder]: [.then(res => log(...)).then(checkSuccess)]. *)
Definition checkOrder (order : jsval) : M CheckedOrder :=
  lift (js_get order "buySell") ;;;
  s <~ get_session ;;
  u <~ get_urls ;;
  res <~ exchange (mkRequest "POST" (trading_url s u "v5/checkOrder") json_headers (Some order)) ;;
  json <~ lift (checkSuccess (log [JStr "checkOrder response:"; res])) ;;
  confirmationId <~ lift (js_get json "confirmationId") ;;
  ret (mkCheckedOrder order confirmationId).

Definition confirmOrder (c : CheckedOrder) : M jsval :=
  lift (js_get (order c) "buySell") ;;;
  s <~ get_session ;;
  u <~ get_urls ;;
  res <~ exchange (mkRequest "POST"
                     (trading_url s u ("v5/order/" +:+ to_string (confirmationId c)))
                     json_headers (Some (order c))) ;;
  json <~ lift (checkSuccess (log [JStr "checkOrder response:"; res])) ;;
  lift (js_get json "orderId").

Definition setOrder (K : Constants) (arg : jsval) : M jsval :=
  o <~ lift (orderOf K arg) ;;
  bind (checkOrder o) confirmOrder.

(** [searchProduct]: the one fetcher of this build whose last callback
    returns the parsed body. *)
Definition searchProduct (K : Constants) (arg : jsval) : M jsval :=
  options <~ lift (searchOptions K arg) ;;
  s <~ get_session ;;
  u <~ get_urls ;;
  productInfo <~ exchange (GET (to_string (Urls.productSearchUrl u)
                                +:+ "v5/products/lookup?intAccount="
                                +:+ to_string (Session.account s) +:+ "&sessionId="
                                +:+ to_string (Session.id s) +:+ "&"
                                +:+ qs_stringify (omitBy_isNil options))) ;;
  ret productInfo.

(** [getProductsByIds]: the chain ends in [.then(res => log(...))]. *)
Definition getProductsByIds (ids : jsval) : M jsval :=
  s <~ get_session ;;
  u <~ get_urls ;;
  body <~ lift (omap id_toString (idsOf ids)) ;;
  res <~ exchange (mkRequest "POST"
                     (to_string (Urls.productSearchUrl u) +:+ "v5/products/info?intAccount="
                      +:+ to_string (Session.account s) +:+ "&sessionId="
                      +:+ to_string (Session.id s))
                     [("Content-Type", "application/json")] (Some (JArr body))) ;;
  ret (log [JStr "getProductsByIds response:"; res]).

End Loose.

(** ** Sample data *)

Definition K0 : Constants := mkConstants (JNum 1) (JStr "all").

Definition opts0 : Options :=
  mkOptions (JStr "user") (JStr "secret") JUndefined JUndefined (JNum 0).

Definition session0 : Session.t :=
  Session.mk (JStr "SID") (JNum 42) (JNum 7) JNull JUndefined.

Definition urls0 : Urls.t :=
  Urls.mk (JStr "https://pa/") (JStr "https://search/") (JStr "https://types/")
          (JStr "https://reporting/") (JStr "https://trading/") (JStr "https://vwd/").

(** 2 November 2026, 15:24 local time. *)
Definition now0 : Z := Date.civil 2026 10 2 15 24.

Definition world0 (answers : list Response) : World :=
  mkWorld session0 urls0 [] answers now0.

Definition ok200 (v : jsval) : Response := mkResponse 200 "OK" [] (Some v).

Definition row (m : string) (v : list jsval) : jsval :=
  JObj [("m", JStr m); ("v", JArr v)].

Definition heartbeat : jsval := JArr [JObj [("m", JStr "h")]].

Definition quotes : jsval :=
  JArr [row "a_req" [JStr "350009261.BidPrice"; JNum 11];
        row "a_req" [JStr "350009261.AskPrice"; JNum 12];
        row "a_req" [JStr "350009261.LastPrice"; JNum 13];
        row "a_req" [JStr "350009261.LastTime"; JNum 14];
        row "un" [JNum 11; JNum 101];
        row "un" [JNum 12; JNum 102];
        row "un" [JNum 13; JNum 100];
        row "us" [JNum 14; JStr "15:24:00"]].

(** The three answers of one round whose poll returns [poll]. *)
Definition round_answers (sid : string) (poll : jsval) : list Response :=
  [ok200 (JObj [("sessionId", JStr sid)]); ok200 JNull; ok200 poll].

(** ** Statements and sample worlds *)

(** An operation that leaves both records as it found them. *)
Definition frame {A} (m : M A) : Prop :=
  forall w, session (snd (m w)) = session w /\ urls (snd (m w)) = urls w.

(** The operations of the validating build outside the bootstrap
    sequence, with their arguments. *)
Inductive operation : Type :=
| SearchProduct (arg : jsval)
| GetData (options : list (string * jsval))
| GetCashFunds
| GetPortfolio
| GetAskBidPrice (issueId : string) (timesChecked : Z)
| CheckOrder (order : jsval)
| ConfirmOrder (c : CheckedOrder)
| SetOrder (arg : jsval)
| DeleteOrder (orderId : jsval)
| GetOrders
| GetTasks
| GetOrdersHistory (fromDate toDate : jsval)
| GetTransactions (fromDate toDate groupByOrder : jsval)
| GetProductsByIds (ids : jsval).

(** The world an operation leaves behind. *)
Definition after (K : Constants) (op : operation) (w : World) : World :=
  match op with
  | SearchProduct arg => snd (Strict.searchProduct K arg w)
  | GetData options => snd (Strict.getData options w)
  | GetCashFunds => snd (Strict.getCashFunds w)
  | GetPortfolio => snd (Strict.getPortfolio w)
  | GetAskBidPrice issueId timesChecked => snd (Strict.getAskBidPrice issueId timesChecked w)
  | CheckOrder order => snd (Strict.checkOrder order w)
  | ConfirmOrder c => snd (Strict.confirmOrder c w)
  | SetOrder arg => snd (Strict.setOrder K arg w)
  | DeleteOrder orderId => snd (Strict.deleteOrder orderId w)
  | GetOrders => snd (Strict.getOrders w)
  | GetTasks => snd (Strict.getTasks w)
  | GetOrdersHistory fromDate toDate => snd (Strict.getOrdersHistory fromDate toDate w)
  | GetTransactions fromDate toDate groupByOrder =>
      snd (Strict.getTransactions fromDate toDate groupByOrder w)
  | GetProductsByIds ids => snd (Strict.getProductsByIds ids w)
  end.

(** The reading of the specification: the call resolves to [true]
    exactly when the answer carries status 0 and text "success", and
    rejects otherwise. *)
Definition deleteOrder_by_status (deleteOrder : jsval -> M jsval) : Prop :=
  forall orderId w r rest body st txt,
    inbox w = r :: rest -> json r = Some body ->
    js_get body "status" = Resolved st -> js_get body "statusText" = Resolved txt ->
    (st = JNum 0 /\ txt = JStr "success" ->
     fst (deleteOrder orderId w) = Resolved (JBool true))
    /\ (~ (st = JNum 0 /\ txt = JStr "success") ->
        exists e, fst (deleteOrder orderId w) = Rejected e).

Definition deleted_ok : jsval := JObj [("status", JNum 0); ("statusText", JStr "success")].
Definition deleted_failed : jsval := JObj [("status", JNum 1); ("statusText", JStr "failed")].

(** A vendor answer of the expected shape: [cashFunds.value] is an array
    of entries, each with an array [value] of name/value records. *)
Definition wellShapedEntry (e : jsval) : bool :=
  match js_get e "value" with
  | Resolved (JArr ps) => forallb (fun p => negb (isNil p)) ps
  | _ => false
  end.

Definition wellShapedCashFunds (data : jsval) : option (list jsval) :=
  match js_get data "cashFunds" with
  | Resolved cf =>
      if truthy cf then
        match js_get cf "value" with
        | Resolved (JArr entries) =>
            if forallb wellShapedEntry entries then Some entries else None
        | _ => None
        end
      else None
  | Rejected _ => None
  end.

Definition cashFunds0 : jsval :=
  JObj [("cashFunds",
         JObj [("value",
                JArr [JObj [("value",
                             JArr [JObj [("name", JStr "id"); ("value", JNum 1)];
                                   JObj [("name", JStr "currencyCode"); ("value", JStr "EUR")];
                                   JObj [("name", JStr "value"); ("value", JNum 250)];
                                   JObj [("name", JStr "handling"); ("value", JStr "x")]])]])])].





Definition config0 : jsval :=
  JObj [("data", JObj [("paUrl", JStr "https://pa/"); ("productSearchUrl", JStr "https://search/");
                       ("productTypesUrl", JStr "https://types/");
                       ("reportingUrl", JStr "https://reporting/");
                       ("tradingUrl", JStr "https://trading/");
                       ("vwdQuotecastServiceUrl", JStr "https://vwd/")])].

Definition client0 : jsval :=
  JObj [("data", JObj [("id", JNum 7); ("intAccount", JNum 42)])].


Definition authorized : Response :=
  mkResponse 200 "OK" [("JSESSIONID", "SID")] (Some (JObj [("status", JNum 0)])).



(** Three polls that return a lone heartbeat row, and a fourth that
    returns quotes. *)
Definition three_heartbeats_then_quotes : World :=
  world0 (round_answers "s1" heartbeat ++ round_answers "s2" heartbeat
          ++ round_answers "s3" heartbeat ++ round_answers "s4" quotes).

Definition four_heartbeats : World :=
  world0 (round_answers "s1" heartbeat ++ round_answers "s2" heartbeat
          ++ round_answers "s3" heartbeat ++ round_answers "s4" heartbeat
          ++ round_answers "s5" quotes).

Definition heartbeat_then_quotes : World :=
  world0 (round_answers "s1" heartbeat ++ round_answers "s2" quotes).


(** A row that writes the property [n] of a processed order, or of a
    cash-funds entry. *)
Definition names (n : string) (row : jsval) : Prop :=
  exists nm, js_get row "name" = Resolved nm /\ to_property_key nm = n.

(** The request [login] starts with: the one-time password, when there
    is one, adds [/totp] to the path and a property to the body. *)
Definition loginRequest (o : Options) : Request :=
  if truthy (oneTimePassword o) then
    mkRequest "POST" (BASE_TRADER_URL +:+ "/login/secure/login" +:+ "/totp")
      [("Content-Type", "application/json")]
      (Some (JObj (loginParams o ++ [("oneTimePassword", oneTimePassword o)])))
  else
    mkRequest "POST" (BASE_TRADER_URL +:+ "/login/secure/login")
      [("Content-Type", "application/json")] (Some (JObj (loginParams o))).

(** The request of [getProductsByIds] for the ids [ids]. *)
Definition productsRequest (w : World) (ids : list jsval) : Request :=
  mkRequest "POST"
    (to_string (Urls.productSearchUrl (urls w)) +:+ "v5/products/info?intAccount="
     +:+ to_string (Session.account (session w)) +:+ "&sessionId="
     +:+ to_string (Session.id (session w)))
    [("Content-Type", "application/json")]
    (Some (JArr (map (fun id => JStr (to_string id)) ids))).

(** * Properties *)

(** ** Running operations *)

Lemma bind_resolved {A B} (m : M A) (k : A -> M B) w a w' :
  m w = (Resolved a, w') -> bind m k w = k a w'.
Proof. intros H. unfold bind. now rewrite H. Qed.

Lemma bind_rejected {A B} (m : M A) (k : A -> M B) w e w' :
  m w = (Rejected e, w') -> bind m k w = (Rejected e, w').
Proof. intros H. unfold bind. now rewrite H. Qed.

Lemma bind_inv {A B} (m : M A) (k : A -> M B) w b w2 :
  bind m k w = (Resolved b, w2) ->
  exists a w1, m w = (Resolved a, w1) /\ k a w1 = (Resolved b, w2).
Proof.
  unfold bind. destruct (m w) as [[a|e] w1]; intros H.
  - exists a, w1. split; [reflexivity | exact H].
  - discriminate H.
Qed.

Lemma lift_inv {A} (o : outcome A) w a w' :
  lift o w = (Resolved a, w') -> o = Resolved a /\ w' = w.
Proof. unfold lift. intros H. inversion H. split; reflexivity. Qed.

Lemma obind_inv {A B} (o : outcome A) (k : A -> outcome B) b :
  obind o k = Resolved b -> exists a, o = Resolved a /\ k a = Resolved b.
Proof. destruct o as [a|e]; simpl; [eauto | discriminate]. Qed.

Lemma fetch_cons rq w r rest :
  inbox w = r :: rest ->
  fetch rq w = (Resolved r, mkWorld (session w) (urls w) (sent w ++ [rq]) rest (clock w)).
Proof. intros H. unfold fetch. now rewrite H. Qed.


Lemma omap_length {A B} (f : A -> outcome B) (l : list A) (r : list B) :
  omap f l = Resolved r -> length r = length l.
Proof.
  revert r. induction l as [|x l IH]; intros r; simpl.
  - intros [= <-]. reflexivity.
  - destruct (f x) as [y|e]; simpl; [|discriminate].
    destruct (omap f l) as [ys|e]; simpl; [|discriminate].
    intros [= <-]. simpl. f_equal. now apply IH.
Qed.

Lemma omap_Forall {A B} (f : A -> outcome B) (P : B -> Prop) (l : list A) (r : list B) :
  (forall x y, f x = Resolved y -> P y) ->
  omap f l = Resolved r -> Forall P r.
Proof.
  intros Hf. revert r. induction l as [|x l IH]; intros r; simpl.
  - intros [= <-]. constructor.
  - destruct (f x) as [y|e] eqn:Hx; simpl; [|discriminate].
    destruct (omap f l) as [ys|e]; simpl; [|discriminate].
    intros [= <-]. constructor; [now apply (Hf x) | now apply IH].
Qed.

Lemma omap_total {A B} (f : A -> outcome B) (l : list A) :
  Forall (fun x => exists y, f x = Resolved y) l -> exists r, omap f l = Resolved r.
Proof.
  induction 1 as [|x l [y Hy] _ [r Hr]]; simpl.
  - eauto.
  - rewrite Hy, Hr. simpl. eauto.
Qed.

(** ** The frame: who writes the session and the routing URLs *)

Lemma frame_ret {A} (a : A) : frame (ret a).
Proof. intros w. split; reflexivity. Qed.

Lemma frame_throw {A} (e : exn) : frame (@throw A e).
Proof. intros w. split; reflexivity. Qed.

Lemma frame_unbound {A} (x : string) : frame (@unbound A x).
Proof. apply frame_throw. Qed.

Lemma frame_lift {A} (o : outcome A) : frame (lift o).
Proof. intros w. split; reflexivity. Qed.

Lemma frame_get_session : frame get_session.
Proof. intros w. split; reflexivity. Qed.

Lemma frame_get_urls : frame get_urls.
Proof. intros w. split; reflexivity. Qed.

Lemma frame_get_clock : frame get_clock.
Proof. intros w. split; reflexivity. Qed.

Lemma frame_fetch rq : frame (fetch rq).
Proof. intros w. unfold fetch. destruct (inbox w); split; reflexivity. Qed.

Lemma frame_res_json r : frame (res_json r).
Proof. unfold res_json. destruct (json r); [apply frame_ret | apply frame_throw]. Qed.

Lemma frame_bind {A B} (m : M A) (k : A -> M B) :
  frame m -> (forall a, frame (k a)) -> frame (bind m k).
Proof.
  intros Hm Hk w. unfold bind.
  specialize (Hm w). destruct (m w) as [[a|e] w1]; simpl in Hm.
  - destruct Hm as [Hs1 Hu1]. destruct (Hk a w1) as [Hs Hu]. split; congruence.
  - exact Hm.
Qed.

Create HintDb frame.
#[local] Hint Resolve frame_ret frame_throw frame_unbound frame_lift frame_get_session
  frame_get_urls frame_get_clock frame_fetch frame_res_json : frame.

Ltac frame_step :=
  match goal with
  | |- frame (bind _ _) => apply frame_bind; [| intros ?]
  | |- frame (if ?b then _ else _) => destruct b
  | |- frame _ => solve [auto with frame]
  end.

Lemma frame_strict_exchange rq : frame (Strict.exchange rq).
Proof. unfold Strict.exchange. repeat frame_step. Qed.

Lemma frame_loose_exchange rq : frame (Loose.exchange rq).
Proof. unfold Loose.exchange. repeat frame_step. Qed.

#[local] Hint Resolve frame_strict_exchange frame_loose_exchange : frame.

Section QuotePollerFrame.
Variable round : string -> M jsval.
Variable finish : jsval -> gmap string jsval -> outcome (gmap string jsval).
Hypothesis round_frame : forall issueId, frame (round issueId).

Lemma frame_askBid issueId timesChecked : frame (askBid round finish issueId timesChecked).
Proof.
  intros w. funelim (askBid round finish issueId timesChecked w);
    try (rewrite <- Heqcall; clear Heqcall).
  all: match goal with
       | E : round ?i ?w = (_, ?w') |- _ =>
           let F := fresh in
           pose proof (round_frame i w) as F; rewrite E in F; simpl in F
       end.
  all: simpl; try assumption.
  match goal with
  | IH : session (askBid _ _ _ _ ?w1).2 = session ?w1 /\ _,
    F : session ?w1 = session ?w0 /\ _ |- _ =>
      destruct IH as [IHs IHu]; destruct F as [Fs Fu]; split; congruence
  end.
Qed.
End QuotePollerFrame.

Lemma frame_strict_round issueId : frame (Strict.round issueId).
Proof. unfold Strict.round, Strict.requestVwdSession. repeat frame_step. Qed.

Lemma frame_loose_round issueId : frame (Loose.round issueId).
Proof. unfold Loose.round, Loose.requestVwdSession. repeat frame_step. Qed.

Lemma frame_strict_getData options : frame (Strict.getData options).
Proof. unfold Strict.getData. repeat frame_step. Qed.

Lemma frame_strict_checkOrder o : frame (Strict.checkOrder o).
Proof. unfold Strict.checkOrder. repeat frame_step. Qed.

Lemma frame_strict_confirmOrder c : frame (Strict.confirmOrder c).
Proof. unfold Strict.confirmOrder. repeat frame_step. Qed.

#[local] Hint Resolve frame_strict_getData frame_strict_checkOrder
  frame_strict_confirmOrder : frame.

(** C9: every operation other than login, updateConfig and getClientInfo
    leaves every field of the session record and of the routing-URL
    record as it was. *)
Theorem operations_preserve_session_and_urls (K : Constants) (op : operation) (w : World) :
  session (after K op w) = session w /\ urls (after K op w) = urls w.
Proof.
  destruct op; simpl.
  all: match goal with
       | |- session (snd (?m ?w0)) = _ /\ _ => revert w0; change (frame m)
       end.
  all: try solve [unfold Strict.searchProduct, Strict.getCashFunds, Strict.getPortfolio,
    Strict.setOrder, Strict.deleteOrder, Strict.getOrders, Strict.getTasks,
    Strict.getOrdersHistory, Strict.getTransactions, Strict.getProductsByIds;
    repeat frame_step].
  apply frame_askBid, frame_strict_round.
Qed.

(** ** Order placement *)

Lemma orderOf_object K arg o :
  orderOf K arg = Resolved o -> exists fs, o = JObj fs.
Proof.
  unfold orderOf. intros H.
  repeat (apply obind_inv in H; destruct H as [? [_ H]]).
  inversion H. eauto.
Qed.

Lemma strict_exchange_ok rq w r rest j :
  inbox w = r :: rest -> ok r = true -> json r = Some j ->
  Strict.exchange rq w
  = (Resolved j, mkWorld (session w) (urls w) (sent w ++ [rq]) rest (clock w)).
Proof.
  intros Hin Hok Hj. unfold Strict.exchange.
  rewrite (bind_resolved _ _ _ _ _ (fetch_cons rq w r rest Hin)).
  unfold res_json. rewrite Hj. unfold bind, ret, lift, Strict.checkSuccess. now rewrite Hok.
Qed.

Lemma strict_exchange_sent rq w : sent (snd (Strict.exchange rq w)) = sent w ++ [rq].
Proof.
  unfold Strict.exchange, bind, fetch, res_json, ret, throw, lift.
  destruct (inbox w) as [|r rest]; simpl; [reflexivity|].
  destruct (json r); reflexivity.
Qed.


Lemma loose_exchange_sent rq w : sent (snd (Loose.exchange rq w)) = sent w ++ [rq].
Proof.
  unfold Loose.exchange, bind, fetch, res_json, ret, throw.
  destruct (inbox w) as [|r rest]; simpl; [reflexivity|].
  destruct (json r); reflexivity.
Qed.



(** ** Deleting an order *)

(** The callback of the looser build does what the specification says,
    on answers whose status is a number and whose text is a string. *)
Lemma loose_deleted_by_status body n txt :
  js_get body "status" = Resolved (JNum n) -> js_get body "statusText" = Resolved (JStr txt) ->
  Loose.deleted body
  = if (n =? 0) && String.eqb txt "success" then Resolved (JBool true)
    else Rejected (Error [Lit "delete order failed"]).
Proof. intros H1 H2. unfold Loose.deleted. rewrite H1, H2. reflexivity. Qed.

(** The callback is never reached. *)
Lemma loose_deleteOrder_throws orderId w :
  Loose.deleteOrder orderId w = (Rejected (ReferenceError "params"), w).
Proof. reflexivity. Qed.

(** C4, as stated, fails in both builds: the validating build resolves
    on an answer with status 1, the looser build rejects an answer with
    status 0 and text "success". *)
Lemma deleteOrder_by_status_fails :
  ~ deleteOrder_by_status Strict.deleteOrder /\ ~ deleteOrder_by_status Loose.deleteOrder.
Proof.
  split; intros H.
  - destruct (H (JStr "o1") (world0 [ok200 deleted_failed]) _ _ deleted_failed (JNum 1) (JStr "failed")
                eq_refl eq_refl eq_refl eq_refl) as [_ Hrej].
    destruct Hrej as [e He]; [intros [[=] _] | discriminate He].
  - destruct (H (JStr "o1") (world0 [ok200 deleted_ok]) _ _ deleted_ok (JNum 0) (JStr "success")
                eq_refl eq_refl eq_refl eq_refl) as [Hres _].
    specialize (Hres (conj eq_refl eq_refl)). discriminate Hres.
Qed.

Lemma strict_checkSuccess_not_ok r j :
  ok r = false -> exists e, Strict.checkSuccess r j = Rejected e.
Proof.
  intros H. unfold Strict.checkSuccess. rewrite H.
  destruct (js_in "errors" j) as [[|]|e]; simpl; eauto.
  destruct (js_get j "errors"); simpl; eauto.
  destruct (js_idx _ 0); simpl; eauto.
  destruct (js_get _ "text"); simpl; eauto.
Qed.

Lemma strict_exchange_not_ok rq w r rest j :
  inbox w = r :: rest -> ok r = false -> json r = Some j ->
  exists e, fst (Strict.exchange rq w) = Rejected e.
Proof.
  intros Hin Hok Hj. unfold Strict.exchange.
  rewrite (bind_resolved _ _ _ _ _ (fetch_cons rq w r rest Hin)).
  unfold res_json. rewrite Hj. unfold bind, ret, lift.
  destruct (strict_checkSuccess_not_ok r j Hok) as [e ->]. eauto.
Qed.

(** C4, amended: in the validating build [deleteOrder] sends one DELETE
    request, resolves to the parsed body exactly when the HTTP status is
    a success status, and rejects otherwise; the status and text inside
    the body are not looked at. *)
Theorem strict_deleteOrder_by_http_status
    (orderId : jsval) (w : World) (r : Response) (rest : list Response) (body : jsval) :
  inbox w = r :: rest -> json r = Some body ->
  (ok r = true -> fst (Strict.deleteOrder orderId w) = Resolved body)
  /\ (ok r = false -> exists e, fst (Strict.deleteOrder orderId w) = Rejected e)
  /\ sent (snd (Strict.deleteOrder orderId w))
     = sent w ++ [mkRequest "DELETE"
                    (trading_url (session w) (urls w) ("v5/order/" +:+ to_string orderId))
                    json_headers None].
Proof.
  intros Hin Hj. unfold Strict.deleteOrder.
  unfold bind at 1 2. unfold get_session, get_urls. simpl.
  repeat split.
  - intros Hok. now rewrite (strict_exchange_ok _ w r rest body Hin Hok Hj).
  - intros Hok. eapply strict_exchange_not_ok; eassumption.
  - apply strict_exchange_sent.
Qed.

Lemma strict_deleteOrder_by_http_status_witness :
  fst (Strict.deleteOrder (JStr "o1") (world0 [ok200 deleted_failed])) = Resolved deleted_failed.
Proof.
  apply (strict_deleteOrder_by_http_status (JStr "o1") (world0 [ok200 deleted_failed])
           (ok200 deleted_failed) [] deleted_failed eq_refl eq_refl).
  reflexivity.
Defined.


(** ** The looser build returns what [log] returns *)

Lemma loose_exchange_json rq w r rest j :
  inbox w = r :: rest -> json r = Some j ->
  Loose.exchange rq w
  = (Resolved j, mkWorld (session w) (urls w) (sent w ++ [rq]) rest (clock w)).
Proof.
  intros Hin Hj. unfold Loose.exchange.
  rewrite (bind_resolved _ _ _ _ _ (fetch_cons rq w r rest Hin)).
  unfold res_json. now rewrite Hj.
Qed.

Lemma loose_getData_value options w v w' :
  Loose.getData options w = (Resolved v, w') -> v = JUndefined.
Proof.
  unfold Loose.getData. intros H.
  apply bind_inv in H as (s & w1 & _ & H).
  apply bind_inv in H as (u & w2 & _ & H).
  apply bind_inv in H as (res & w3 & _ & H).
  unfold ret, log in H. now inversion H.
Qed.

(** A [then] callback that starts by reading a property of its argument
    never resolves after [getData]. *)
Lemma loose_after_getData {A} options (k : jsval -> outcome A) w :
  k JUndefined = Rejected TypeError ->
  exists e, fst (bind (Loose.getData options) (fun data => lift (k data)) w) = Rejected e.
Proof.
  intros Hk. unfold bind at 1.
  destruct (Loose.getData options w) as [[v|e] w1] eqn:E; simpl; [|eauto].
  apply loose_getData_value in E. subst v. unfold lift. rewrite Hk. eauto.
Qed.

(** C10: in the looser build [getData] resolves to what [log] returns,
    [undefined], whatever the vendor answers; [getCashFunds],
    [getPortfolio] and [getOrders] therefore never resolve; and
    [checkOrder] hands [undefined], not the parsed body, to
    [checkSuccess], which throws on it. *)
Theorem loose_getData_resolves_undefined
    (options : list (string * jsval)) (order : jsval) (w : World) :
  (forall v w', Loose.getData options w = (Resolved v, w') -> v = JUndefined)
  /\ (forall r rest body, inbox w = r :: rest -> json r = Some body ->
      fst (Loose.getData options w) = Resolved JUndefined
      /\ fst (Loose.getCashFunds w) = Rejected TypeError
      /\ fst (Loose.getPortfolio w) = Rejected TypeError
      /\ fst (Loose.getOrders w) = Rejected TypeError
      /\ log [JStr "checkOrder response:"; body] = JUndefined
      /\ fst (Loose.checkOrder order w) = Rejected TypeError)
  /\ (exists e, fst (Loose.getCashFunds w) = Rejected e)
  /\ (exists e, fst (Loose.getPortfolio w) = Rejected e)
  /\ (exists e, fst (Loose.getOrders w) = Rejected e)
  /\ (exists e, fst (Loose.checkOrder order w) = Rejected e).
Proof.
  split; [intros v w'; apply loose_getData_value|].
  split.
  - intros r rest body Hin Hj.
    assert (Hd : forall o, Loose.getData o w
                 = (Resolved JUndefined,
                    mkWorld (session w) (urls w)
                      (sent w ++ [GET (to_string (Urls.tradingUrl (urls w)) +:+ "v5/update/"
                                       +:+ to_string (Session.account (session w)) +:+ ";jsessionid="
                                       +:+ to_string (Session.id (session w)) +:+ "?"
                                       +:+ qs_stringify o)])
                      rest (clock w))).
    { intros o. unfold Loose.getData. unfold bind at 1 2. unfold get_session, get_urls. simpl.
      unfold bind. now rewrite (loose_exchange_json _ w r rest body Hin Hj). }
    repeat split.
    + now rewrite Hd.
    + unfold Loose.getCashFunds, bind. now rewrite Hd.
    + unfold Loose.getPortfolio, bind. now rewrite Hd.
    + unfold Loose.getOrders, bind. now rewrite Hd.
    + unfold Loose.checkOrder. unfold bind at 1. unfold lift.
      assert (Hb : js_get order "buySell" = Rejected TypeError
                   \/ exists v, js_get order "buySell" = Resolved v)
        by (destruct order; simpl; eauto).
      destruct Hb as [-> | [v ->]]; [reflexivity|].
      unfold bind at 1 2. unfold get_session, get_urls. simpl.
      unfold bind at 1. now rewrite (loose_exchange_json _ w r rest body Hin Hj).
  - repeat split.
    + apply (loose_after_getData _ reshapeCashFunds). reflexivity.
    + apply (loose_after_getData _ reshapePortfolio). reflexivity.
    + unfold Loose.getOrders. unfold bind at 1.
      destruct (Loose.getData _ w) as [[v|e] w1] eqn:E; simpl; [|eauto].
      apply loose_getData_value in E. subst v. eauto.
    + unfold Loose.checkOrder. unfold bind at 1. unfold lift.
      destruct (js_get order "buySell"); [|eauto].
      unfold bind at 1 2. unfold get_session, get_urls. simpl.
      unfold bind at 1. destruct (Loose.exchange _ w) as [[v|e] w1]; simpl; eauto.
Qed.

Lemma loose_getData_resolves_undefined_witness :
  fst (Loose.getData [("cashFunds", JNum 0)]
         (world0 [ok200 (JObj [("cashFunds", JObj [("value", JArr [])])])]))
  = Resolved JUndefined.
Proof.
  exact (proj1 (proj1 (proj2 (loose_getData_resolves_undefined [("cashFunds", JNum 0)] JNull
           (world0 [ok200 (JObj [("cashFunds", JObj [("value", JArr [])])])])))
           _ _ _ eq_refl eq_refl)).
Defined.

(** ** Cash funds *)

Lemma omit_lookup (names : list string) (m : gmap string jsval) (k : string) :
  k ∈ names -> omit m names !! k = None.
Proof.
  unfold omit. revert m. induction names as [|n names IH]; intros m Hk.
  - inversion Hk.
  - simpl. destruct (decide (k ∈ names)) as [Hin|Hnin]; [now apply IH|].
    apply elem_of_cons in Hk as [->|Hk]; [|contradiction].
    clear IH. assert (Hd : delete n m !! n = None) by apply lookup_delete_eq.
    revert Hd. generalize (delete n m). clear m.
    induction names as [|n' names IH]; intros m Hm; simpl; [exact Hm|].
    apply IH.
    + intros Hn. apply Hnin. now right.
    + rewrite lookup_delete_ne; [exact Hm|]. intros ->. apply Hnin. now left.
Qed.

Lemma cashFundsEntry_stripped e entry :
  cashFundsEntry e = Resolved entry ->
  entry !! "handling" = None /\ entry !! "currencyCode" = None.
Proof.
  unfold cashFundsEntry. intros H.
  apply obind_inv in H as (value & _ & H).
  destruct value; try discriminate H.
  apply obind_inv in H as (pairs & _ & H).
  injection H as <-.
  split; [change (omit (fromPairs pairs) ["handling"; "currencyCode"] !! "handling" = None)
         |change (omit (fromPairs pairs) ["handling"; "currencyCode"] !! "currencyCode" = None)];
    apply omit_lookup; set_solver.
Qed.

Lemma pair_of_total p : isNil p = false -> exists r, pair_of p = Resolved r.
Proof. destruct p; simpl; try discriminate; unfold pair_of; simpl; eauto. Qed.

Lemma cashFundsEntry_total e :
  wellShapedEntry e = true -> exists entry, cashFundsEntry e = Resolved entry.
Proof.
  unfold wellShapedEntry, cashFundsEntry. destruct (js_get e "value") as [v|]; [|discriminate].
  destruct v; try discriminate. intros H. simpl.
  destruct (omap_total pair_of xs) as [r Hr].
  - apply Forall_forall. intros p Hp. apply pair_of_total.
    apply list_elem_of_In in Hp.
    rewrite forallb_forall in H. specialize (H p Hp). now destruct (isNil p).
  - rewrite Hr. simpl. eauto.
Qed.

Lemma reshapeCashFunds_stripped data entries :
  reshapeCashFunds data = Resolved entries ->
  Forall (fun entry => entry !! "handling" = None /\ entry !! "currencyCode" = None) entries.
Proof.
  unfold reshapeCashFunds. intros H.
  apply obind_inv in H as (cf & _ & H).
  destruct (truthy cf); [|discriminate H].
  apply obind_inv in H as (value & _ & H).
  destruct value; try discriminate H.
  eapply omap_Forall; [|exact H]. intros x y. apply cashFundsEntry_stripped.
Qed.

(** C6: whenever [getCashFunds] resolves, in either build, no entry of
    the array it returns has a [handling] or a [currencyCode] key,
    whatever keys the vendor entry had; and on a well-shaped answer the
    validating build does resolve, with one entry per vendor entry. *)
Theorem getCashFunds_strips_keys (w : World) :
  (forall entries w',
     Strict.getCashFunds w = (Resolved entries, w')
     \/ Loose.getCashFunds w = (Resolved entries, w') ->
     Forall (fun entry => entry !! "handling" = None /\ entry !! "currencyCode" = None) entries)
  /\ (forall r rest data vendor,
        inbox w = r :: rest -> ok r = true -> json r = Some data ->
        wellShapedCashFunds data = Some vendor ->
        exists entries,
          fst (Strict.getCashFunds w) = Resolved entries
          /\ length entries = length vendor
          /\ Forall (fun entry => entry !! "handling" = None /\ entry !! "currencyCode" = None)
               entries).
Proof.
  split.
  - intros entries w' [H|H].
    + unfold Strict.getCashFunds in H. apply bind_inv in H as (data & w1 & _ & H).
      apply lift_inv in H as (H & _). now apply reshapeCashFunds_stripped in H.
    + unfold Loose.getCashFunds in H. apply bind_inv in H as (data & w1 & _ & H).
      apply lift_inv in H as (H & _). now apply reshapeCashFunds_stripped in H.
  - intros r rest data vendor Hin Hok Hj Hshape.
    unfold wellShapedCashFunds in Hshape.
    destruct (js_get data "cashFunds") as [cf|] eqn:Hcf; [|discriminate].
    destruct (truthy cf) eqn:Ht; [|discriminate].
    destruct (js_get cf "value") as [v|] eqn:Hv; [|discriminate].
    destruct v as [| | | | |entries|]; try discriminate.
    destruct (forallb wellShapedEntry entries) eqn:Hall; [|discriminate].
    injection Hshape as <-.
    destruct (omap_total cashFundsEntry entries) as [res Hres].
    { apply Forall_forall. intros e He. apply cashFundsEntry_total.
      apply list_elem_of_In in He.
      rewrite forallb_forall in Hall. now apply Hall. }
    assert (Hre : reshapeCashFunds data = Resolved res).
    { unfold reshapeCashFunds. rewrite Hcf. simpl. rewrite Ht, Hv. simpl. exact Hres. }
    exists res. repeat split.
    + unfold Strict.getCashFunds, Strict.getData.
      unfold bind at 1 2 3. unfold get_session, get_urls. simpl.
      rewrite (strict_exchange_ok _ w r rest data Hin Hok Hj).
      unfold lift. simpl. exact Hre.
    + eapply omap_length, Hres.
    + now apply reshapeCashFunds_stripped in Hre.
Qed.

Lemma getCashFunds_strips_keys_witness :
  exists entries,
    fst (Strict.getCashFunds (world0 [ok200 cashFunds0])) = Resolved entries
    /\ length entries = 1%nat
    /\ Forall (fun entry => entry !! "handling" = None /\ entry !! "currencyCode" = None) entries.
Proof.
  exact (proj2 (getCashFunds_strips_keys (world0 [ok200 cashFunds0]))
           (ok200 cashFunds0) [] cashFunds0 _ eq_refl eq_refl eq_refl eq_refl).
Defined.

(** ** Login and the bootstrap chain *)

Lemma fetch_inv rq w r w1 :
  fetch rq w = (Resolved r, w1) ->
  exists rest, inbox w = r :: rest
               /\ w1 = mkWorld (session w) (urls w) (sent w ++ [rq]) rest (clock w).
Proof.
  unfold fetch. destruct (inbox w) as [|r0 rest]; intros H; inversion H. eauto.
Qed.

Lemma res_json_inv r w j w1 :
  res_json r w = (Resolved j, w1) -> json r = Some j /\ w1 = w.
Proof.
  unfold res_json. destruct (json r); intros H; inversion H. split; reflexivity.
Qed.

Lemma strict_exchange_inv rq w j w1 :
  Strict.exchange rq w = (Resolved j, w1) ->
  exists r rest, inbox w = r :: rest /\ ok r = true /\ json r = Some j
                 /\ w1 = mkWorld (session w) (urls w) (sent w ++ [rq]) rest (clock w).
Proof.
  unfold Strict.exchange. intros H.
  apply bind_inv in H as (r & w2 & Hf & H).
  apply bind_inv in H as (j' & w3 & Hj & H).
  apply fetch_inv in Hf as (rest & Hin & ->).
  apply res_json_inv in Hj as (Hj & ->).
  apply lift_inv in H as (H & ->).
  unfold Strict.checkSuccess in H. destruct (ok r) eqn:Hok.
  - injection H as ->. exists r, rest. auto.
  - destruct (strict_checkSuccess_not_ok r j' Hok) as [e He].
    unfold Strict.checkSuccess in He. rewrite Hok in He. congruence.
Qed.

Lemma loose_exchange_inv rq w j w1 :
  Loose.exchange rq w = (Resolved j, w1) ->
  exists r rest, inbox w = r :: rest /\ json r = Some j
                 /\ w1 = mkWorld (session w) (urls w) (sent w ++ [rq]) rest (clock w).
Proof.
  unfold Loose.exchange. intros H.
  apply bind_inv in H as (r & w2 & Hf & H).
  apply fetch_inv in Hf as (rest & Hin & ->).
  apply res_json_inv in H as (Hj & ->).
  exists r, rest. auto.
Qed.















(** In the validating build an error payload under a success status is
    not looked at either. *)
Example strict_login_errors_under_200 :
  is_resolved
    (fst (Strict.login opts0
            (create opts0
               [mkResponse 200 "OK" [("JSESSIONID", "SID")]
                  (Some (JObj [("errors", JArr [JObj [("text", JStr "bad credentials")]])]));
                ok200 config0; ok200 client0] now0)))
  = true.
Proof. reflexivity. Qed.

(** ** Quote rows *)






(** ** Order dates *)

Module DateFacts.
Import Date.








End DateFacts.


Example time_of_day_25_70 :
  parseOrderDate now0 (JStr "25:70") = Resolved (Some (Date.civil 2026 10 3 2 10)).
Proof. vm_compute. reflexivity. Qed.



(** C2 at 5 March, read on 2 November 2026: [getYear] gives 126, which
    the [Date] constructor takes as the year 126, and the month number 3
    is April for the constructor.  The parsed date is 5 April 126, not
    5 March 2026. *)
Theorem order_day_month_on_2026_11_02 :
  Date.YearFromTime now0 = 2026 /\ Date.MonthFromTime now0 = 10
  /\ exists t,
       parseOrderDate now0 (JStr "05/03") = Resolved (Some t)
       /\ Date.YearFromTime t = 126
       /\ Date.MonthFromTime t = 3
       /\ Date.DateFromTime t = 5
       /\ t = Date.civil 126 3 5 0 0
       /\ t <> Date.civil 2026 2 5 0 0.
Proof.
  split; [vm_compute; reflexivity|]. split; [vm_compute; reflexivity|].
  eexists. split; [vm_compute; reflexivity|].
  repeat split; try (vm_compute; reflexivity).
  vm_compute. discriminate.
Qed.

(** The last day of a month moves on as well: "31/03" is read as
    31 April, that is 1 May. *)
Example order_day_month_31_03 :
  parseOrderDate now0 (JStr "31/03") = Resolved (Some (Date.civil 126 4 1 0 0)).
Proof. vm_compute. reflexivity. Qed.

(** ** The calendar functions against their defining properties *)

(** [YearFromDay d] is the year the day [d] falls in. *)
Lemma YearFromDay_bounds (d : Z) :
  Date.DayFromYear (Date.YearFromDay d) <= d < Date.DayFromYear (Date.YearFromDay d + 1).
Proof.
  unfold Date.YearFromDay.
  set (y := 1970 + 400 * d / 146097).
  assert (Hlo : Date.DayFromYear (y - 1) <= d).
  { subst y. unfold Date.DayFromYear. Z.to_euclidean_division_equations. lia. }
  assert (Hhi : d < Date.DayFromYear (y + 2)).
  { subst y. unfold Date.DayFromYear. Z.to_euclidean_division_equations. lia. }
  destruct (Z.ltb_spec d (Date.DayFromYear y)).
  - replace (y - 1 + 1) with y by lia. lia.
  - destruct (Z.leb_spec (Date.DayFromYear (y + 1)) d).
    + replace (y + 1 + 1) with (y + 2) by lia. lia.
    + lia.
Qed.

Lemma DaysInYear_range (y : Z) : 365 <= Date.DaysInYear y <= 366.
Proof.
  unfold Date.DaysInYear, Date.DayFromYear. Z.to_euclidean_division_equations. lia.
Qed.

(** [MonthFromTime t] is the month the day of [t] falls in. *)
Lemma MonthFromTime_bounds (t : Z) :
  0 <= Date.MonthFromTime t <= 11
  /\ Date.daysBeforeMonth (Date.InLeapYear t) (Date.MonthFromTime t) <= Date.DayWithinYear t
     < Date.daysBeforeMonth (Date.InLeapYear t) (Date.MonthFromTime t + 1).
Proof.
  pose proof (YearFromDay_bounds (Date.Day t)) as Hy.
  pose proof (DaysInYear_range (Date.YearFromTime t)) as Hl.
  unfold Date.MonthFromTime.
  assert (Hd : 0 <= Date.DayWithinYear t < 365 + Date.InLeapYear t).
  { unfold Date.DayWithinYear, Date.InLeapYear, Date.YearFromTime, Date.DaysInYear in *. lia. }
  assert (Hleap : 0 <= Date.InLeapYear t <= 1) by (unfold Date.InLeapYear; lia).
  revert Hd Hleap. generalize (Date.DayWithinYear t) (Date.InLeapYear t). intros d l Hd Hleap.
  unfold Date.month_search.
  repeat match goal with
         | |- context [Z.ltb ?a ?b] => destruct (Z.ltb_spec a b)
         end; simpl in *; lia.
Qed.

(** ** The quote poller *)

Section QuotePollerFacts.
Variable round : string -> M jsval.
Variable finish : jsval -> gmap string jsval -> outcome (gmap string jsval).

Lemma askBid_round_rejected issueId timesChecked w e w' :
  round issueId w = (Rejected e, w') ->
  askBid round finish issueId timesChecked w = (Rejected e, w').
Proof. intros H. rewrite askBid_equation_1, H. reflexivity. Qed.

Lemma askBid_rows issueId timesChecked w res w' st :
  round issueId w = (Resolved res, w') ->
  inspect issueId res = Resolved (Rows st) ->
  askBid round finish issueId timesChecked w = (finish res (prices st), w').
Proof. intros H Hi. rewrite askBid_equation_1, H. simpl. rewrite Hi. reflexivity. Qed.

(** After a heartbeat, [timesChecked] having been incremented, the
    client retries as long as the counter is at most 3. *)
Lemma askBid_heartbeat issueId timesChecked w res w' :
  round issueId w = (Resolved res, w') ->
  inspect issueId res = Resolved Heartbeat ->
  askBid round finish issueId timesChecked w
  = if decide (timesChecked + 1 <= 3)
    then askBid round finish issueId (timesChecked + 1) w'
    else (Rejected (tried_3_times res), w').
Proof.
  intros H Hi. rewrite askBid_equation_1, H. simpl. rewrite Hi. simpl.
  destruct (Z_le_dec (timesChecked + 1) 3) as [Hle|Hgt]; simpl;
    destruct (decide (timesChecked + 1 <= 3)); try reflexivity; lia.
Qed.

Lemma askBid_never_resolves issueId timesChecked w :
  (forall w0, is_resolved (fst (round issueId w0)) = false) ->
  is_resolved (fst (askBid round finish issueId timesChecked w)) = false.
Proof.
  intros Hr. specialize (Hr w).
  destruct (round issueId w) as [[res|e] w'] eqn:E; [discriminate Hr|].
  now rewrite (askBid_round_rejected _ _ _ _ _ E).
Qed.
End QuotePollerFacts.

Lemma inspect_heartbeat issueId : inspect issueId heartbeat = Resolved Heartbeat.
Proof. reflexivity. Qed.

(** One round of the validating build against a vendor that answers the
    session request with [sid] and the poll with [poll]. *)
Lemma strict_round_answers issueId w s1 r2 p rest sess sid poll :
  inbox w = s1 :: r2 :: p :: rest ->
  ok s1 = true -> json s1 = Some sess -> js_get sess "sessionId" = Resolved sid ->
  ok p = true -> json p = Some poll ->
  Strict.round issueId w
  = (Resolved poll,
     mkWorld (session w) (urls w)
       (sent w ++ [mkRequest "POST"
                     (VWD_URL +:+ "request_session?version=1.0.20170315&userToken="
                      +:+ to_string (Session.userToken (session w)))
                     vwd_headers (Some (JObj [("referrer", JStr "https://trader.degiro.nl")]));
                   mkRequest "POST" (VWD_URL +:+ to_string sid) vwd_headers
                     (Some (controlData issueId));
                   GET (VWD_URL +:+ to_string sid)])
       rest (clock w)).
Proof.
  intros Hin Hok1 Hj1 Hsid Hokp Hjp.
  unfold Strict.round, Strict.requestVwdSession.
  unfold bind at 1 2. unfold get_session. simpl.
  rewrite (strict_exchange_ok _ w s1 (r2 :: p :: rest) sess Hin Hok1 Hj1).
  unfold bind at 1. unfold lift. rewrite Hsid.
  unfold bind at 1. unfold fetch at 1. simpl.
  match goal with
  | |- context [Strict.exchange ?rq ?w1] =>
      rewrite (strict_exchange_ok rq w1 p rest poll eq_refl Hokp Hjp)
  end. simpl.
  repeat rewrite <- app_assoc. reflexivity.
Qed.

(** The looser build never gets as far as polling: [requestVwdSession]
    resolves to what [log] returns, and reading [sessionId] off it
    throws. *)
Lemma loose_round_rejected issueId w : is_resolved (fst (Loose.round issueId w)) = false.
Proof.
  unfold Loose.round, Loose.requestVwdSession.
  unfold bind at 1 2 3. unfold get_session. simpl.
  destruct (Loose.exchange _ w) as [[v|e] w1]; reflexivity.
Qed.

Lemma loose_getAskBidPrice_never_resolves issueId timesChecked w :
  is_resolved (fst (Loose.getAskBidPrice issueId timesChecked w)) = false.
Proof. apply askBid_never_resolves. intros w0. apply loose_round_rejected. Qed.

(** C1 at three heartbeat polls followed by quotes: the validating build
    does not give up after the third heartbeat.  It starts a fourth
    round and resolves with the quotes of the fourth poll; only a fourth
    lone heartbeat makes it fail, with the message "Tried 3 times". *)
Theorem getAskBidPrice_polls_four_times :
  fst (Strict.getAskBidPrice "350009261" 0 three_heartbeats_then_quotes)
  = Resolved {[ "bidPrice" := JNum 101; "askPrice" := JNum 102;
                "lastPrice" := JNum 100; "lastTime" := JStr "15:24:00" ]}
  /\ map url (sent (snd (Strict.getAskBidPrice "350009261" 0 three_heartbeats_then_quotes)))
     = flat_map (fun sid => [VWD_URL +:+ "request_session?version=1.0.20170315&userToken=7";
                             VWD_URL +:+ sid; VWD_URL +:+ sid])
         ["s1"; "s2"; "s3"; "s4"]
  /\ Strict.getAskBidPrice "350009261" 0 four_heartbeats
     = (Rejected (tried_3_times heartbeat),
        mkWorld session0 urls0
          (sent (snd (Strict.getAskBidPrice "350009261" 0 three_heartbeats_then_quotes)))
          (round_answers "s5" quotes) now0).
Proof. split; [|split]; vm_compute; reflexivity. Qed.

(** The other half of C1 holds in the validating build: a heartbeat
    followed by quotes resolves with the quotes, polled in a second
    quote session. *)
Example getAskBidPrice_heartbeat_then_quotes :
  fst (Strict.getAskBidPrice "350009261" 0 heartbeat_then_quotes)
  = Resolved {[ "bidPrice" := JNum 101; "askPrice" := JNum 102;
                "lastPrice" := JNum 100; "lastTime" := JStr "15:24:00" ]}
  /\ map url (sent (snd (Strict.getAskBidPrice "350009261" 0 heartbeat_then_quotes)))
     = flat_map (fun sid => [VWD_URL +:+ "request_session?version=1.0.20170315&userToken=7";
                             VWD_URL +:+ sid; VWD_URL +:+ sid])
         ["s1"; "s2"].
Proof. split; vm_compute; reflexivity. Qed.

(** In the looser build the same answers end in a [TypeError] after the
    first session request. *)
Example loose_getAskBidPrice_heartbeat_then_quotes :
  fst (Loose.getAskBidPrice "350009261" 0 heartbeat_then_quotes) = Rejected TypeError
  /\ length (sent (snd (Loose.getAskBidPrice "350009261" 0 heartbeat_then_quotes))) = 1%nat.
Proof. split; vm_compute; reflexivity. Qed.

(** The retry rule in general: in the validating build a lone heartbeat
    at [timesChecked <= 2] leads to another round. *)
Lemma strict_getAskBidPrice_retries issueId timesChecked w w' :
  Strict.round issueId w = (Resolved heartbeat, w') ->
  timesChecked <= 2 ->
  Strict.getAskBidPrice issueId timesChecked w
  = Strict.getAskBidPrice issueId (timesChecked + 1) w'.
Proof.
  intros H Hle. unfold Strict.getAskBidPrice.
  rewrite (askBid_heartbeat _ _ _ _ _ _ _ H (inspect_heartbeat issueId)).
  destruct (decide (timesChecked + 1 <= 3)); [reflexivity | lia].
Qed.

Lemma strict_getAskBidPrice_gives_up issueId timesChecked w w' :
  Strict.round issueId w = (Resolved heartbeat, w') ->
  3 <= timesChecked ->
  Strict.getAskBidPrice issueId timesChecked w = (Rejected (tried_3_times heartbeat), w').
Proof.
  intros H Hle. unfold Strict.getAskBidPrice.
  rewrite (askBid_heartbeat _ _ _ _ _ _ _ H (inspect_heartbeat issueId)).
  destruct (decide (timesChecked + 1 <= 3)); [lia | reflexivity].
Qed.

(** * Further properties of the client *)

(** ** [utils.js] *)



Lemma headerToJSON_snoc headers key value :
  headerToJSON (headers ++ [(key, value)]) = <[key := value]> (headerToJSON headers).
Proof. unfold headerToJSON. now rewrite foldl_app. Qed.



(** ** [checkSuccess] of the validating build *)

(** [checkSuccess] hands the body back untouched when the status is a
    success status.  Otherwise it throws: with the text of the first
    entry of [errors] when the body has one, with "status - statusText"
    when the body is an object without [errors]; and a body whose
    [errors] is an empty array, or a body that is not an object, makes
    the check itself fail with a [TypeError]. *)
Theorem strict_checkSuccess_outcomes (res : Response) (json : jsval) :
  (ok res = true -> Strict.checkSuccess res json = Resolved json)
  /\ (ok res = false ->
      (forall fs, json = JObj fs -> obj_lookup "errors" fs = None ->
         Strict.checkSuccess res json
         = Rejected (Error [ToStr (JNum (status res)); Lit " - "; Lit (statusText res)]))
      /\ (forall fs e0 more text,
            json = JObj fs -> obj_lookup "errors" fs = Some (JArr (e0 :: more)) ->
            js_get e0 "text" = Resolved text -> text <> JUndefined ->
            Strict.checkSuccess res json = Rejected (Error [ToStr text]))
      /\ (forall fs, json = JObj fs -> obj_lookup "errors" fs = Some (JArr []) ->
            Strict.checkSuccess res json = Rejected TypeError)
      /\ (isArray json = false -> (forall fs, json <> JObj fs) ->
            Strict.checkSuccess res json = Rejected TypeError)).
Proof.
  unfold Strict.checkSuccess. split; [intros ->; reflexivity|].
  intros ->. repeat split.
  - intros fs -> Hno. simpl. rewrite Hno. reflexivity.
  - intros fs e0 more text -> Herr Htext Hdef. simpl. rewrite Herr. simpl.
    rewrite Htext. simpl. destruct text; try reflexivity. contradiction.
  - intros fs -> Herr. simpl. rewrite Herr. reflexivity.
  - intros Harr Hobj. destruct json; try reflexivity; try discriminate.
    exfalso. eapply Hobj. reflexivity.
Qed.

Lemma strict_checkSuccess_outcomes_witness :
  Strict.checkSuccess (mkResponse 401 "Unauthorized" [] None)
    (JObj [("errors", JArr [JObj [("text", JStr "bad credentials")]])])
  = Rejected (Error [ToStr (JStr "bad credentials")]).
Proof.
  apply (proj1 (proj2 (proj2 (strict_checkSuccess_outcomes
                                (mkResponse 401 "Unauthorized" [] None)
                                (JObj [("errors", JArr [JObj [("text", JStr "bad credentials")]])]))
                         eq_refl))
           _ (JObj [("text", JStr "bad credentials")]) [] (JStr "bad credentials")
           eq_refl eq_refl eq_refl).
  discriminate.
Defined.

(** ** The quote poller: how often, and what for each kind of answer *)

Section QuotePollerBound.
Variable round : string -> M jsval.
Variable finish : jsval -> gmap string jsval -> outcome (gmap string jsval).
Variable n : nat.
Hypothesis round_bound :
  forall issueId w, (length (sent (snd (round issueId w))) <= length (sent w) + n)%nat.

Lemma askBid_sent_bound issueId timesChecked w :
  (length (sent (snd (askBid round finish issueId timesChecked w)))
   <= length (sent w) + n * Z.to_nat (Z.max 1 (4 - timesChecked)))%nat.
Proof.
  funelim (askBid round finish issueId timesChecked w);
    try (rewrite <- Heqcall; clear Heqcall).
  all: match goal with
       | E : round ?i ?w = (_, ?w') |- _ =>
           let F := fresh "F" in
           pose proof (round_bound i w) as F; rewrite E in F; simpl in F
       end.
  all: simpl; nia.
Qed.
End QuotePollerBound.

Lemma strict_round_sent_bound issueId w :
  (length (sent (snd (Strict.round issueId w))) <= length (sent w) + 3)%nat.
Proof.
  unfold Strict.round, Strict.requestVwdSession.
  unfold bind at 1 2. unfold get_session. simpl.
  set (rq1 := mkRequest _ _ _ _).
  pose proof (strict_exchange_sent rq1 w) as H1.
  destruct (Strict.exchange rq1 w) as [[v|e] w1]; simpl in *;
    [|rewrite H1, length_app; simpl; lia].
  unfold bind at 1. unfold lift.
  destruct (js_get v "sessionId") as [sid|e]; simpl; [|rewrite H1, length_app; simpl; lia].
  unfold bind at 1. unfold fetch at 1.
  destruct (inbox w1) as [|r rest]; simpl;
    rewrite ?strict_exchange_sent; simpl; rewrite ?length_app, H1, ?length_app; simpl; lia.
Qed.

(** [getAskBidPrice] always comes to an end, and sends at most three
    requests for each of at most [4 - timesChecked] rounds (one round
    when [timesChecked] is 4 or more): at most twelve requests for a
    call with the default [timesChecked = 0]. *)
Theorem getAskBidPrice_request_bound (issueId : string) (timesChecked : Z) (w : World) :
  (length (sent (snd (Strict.getAskBidPrice issueId timesChecked w)))
   <= length (sent w) + 3 * Z.to_nat (Z.max 1 (4 - timesChecked)))%nat
  /\ (length (sent (snd (Strict.getAskBidPrice issueId 0 w))) <= length (sent w) + 12)%nat.
Proof.
  split.
  - apply askBid_sent_bound. apply strict_round_sent_bound.
  - apply (askBid_sent_bound Strict.round Strict.finish 3 strict_round_sent_bound issueId 0 w).
Qed.

(** What [getAskBidPrice] does with one round's answers, when the vendor
    opens a quote session and answers the poll with [poll]: a lone
    heartbeat leads to a further round while [timesChecked] is at most 2
    and to the "Tried 3 times" error carrying [poll] from 3 on; rows
    resolve to [prices] whatever [timesChecked] is; and what [checkData]
    throws is what the call rejects with. *)
Theorem getAskBidPrice_by_answer
    (issueId : string) (timesChecked : Z) (w : World)
    (s1 r2 p : Response) (rest : list Response) (sess sid poll : jsval) :
  inbox w = s1 :: r2 :: p :: rest ->
  ok s1 = true -> json s1 = Some sess -> js_get sess "sessionId" = Resolved sid ->
  ok p = true -> json p = Some poll ->
  let w' := snd (Strict.round issueId w) in
  inbox w' = rest
  /\ (inspect issueId poll = Resolved Heartbeat -> timesChecked <= 2 ->
      Strict.getAskBidPrice issueId timesChecked w
      = Strict.getAskBidPrice issueId (timesChecked + 1) w')
  /\ (inspect issueId poll = Resolved Heartbeat -> 3 <= timesChecked ->
      Strict.getAskBidPrice issueId timesChecked w = (Rejected (tried_3_times poll), w'))
  /\ (forall st, inspect issueId poll = Resolved (Rows st) ->
      Strict.getAskBidPrice issueId timesChecked w = (Resolved (prices st), w'))
  /\ (forall e, inspect issueId poll = Rejected e ->
      Strict.getAskBidPrice issueId timesChecked w = (Rejected e, w')).
Proof.
  intros Hin Hok1 Hj1 Hsid Hokp Hjp w'.
  pose proof (strict_round_answers issueId w s1 r2 p rest sess sid poll
                Hin Hok1 Hj1 Hsid Hokp Hjp) as Hr.
  subst w'. rewrite Hr. simpl. split; [reflexivity|].
  unfold Strict.getAskBidPrice. repeat split.
  - intros Hi Hle. rewrite (askBid_heartbeat _ _ _ _ _ _ _ Hr Hi).
    destruct (decide (timesChecked + 1 <= 3)); [reflexivity | lia].
  - intros Hi Hle. rewrite (askBid_heartbeat _ _ _ _ _ _ _ Hr Hi).
    destruct (decide (timesChecked + 1 <= 3)); [lia | reflexivity].
  - intros st Hi. now rewrite (askBid_rows _ _ _ _ _ _ _ _ Hr Hi).
  - intros e Hi. rewrite askBid_equation_1, Hr. simpl. rewrite Hi. reflexivity.
Qed.

Lemma getAskBidPrice_by_answer_witness :
  Strict.getAskBidPrice "350009261" 3 (world0 (round_answers "s1" heartbeat))
  = (Rejected (tried_3_times heartbeat),
     snd (Strict.round "350009261" (world0 (round_answers "s1" heartbeat)))).
Proof.
  destruct (getAskBidPrice_by_answer "350009261" 3 (world0 (round_answers "s1" heartbeat))
              _ _ _ [] _ (JStr "s1") heartbeat eq_refl eq_refl eq_refl eq_refl eq_refl eq_refl)
    as (_ & _ & H & _).
  apply H; [reflexivity | lia].
Defined.

(** ** Loops that may throw *)

Lemma ofold_invariant {A S} (f : S -> A -> outcome S) (P : S -> Prop) (l : list A) :
  (forall s x s', x ∈ l -> f s x = Resolved s' -> P s -> P s') ->
  forall s s', ofold f s l = Resolved s' -> P s -> P s'.
Proof.
  induction l as [|x l IH]; intros Hstep s s' H Hs; simpl in H.
  - now injection H as <-.
  - apply obind_inv in H as (s1 & H1 & H).
    eapply IH; [|exact H|].
    + intros s0 y s0' Hy. apply Hstep. now right.
    + eapply Hstep; [left | exact H1 | exact Hs].
Qed.

Lemma ofold_steps {A S} (f : S -> A -> outcome S) (l : list A) s s' x :
  ofold f s l = Resolved s' -> x ∈ l -> exists s1 s2, f s1 x = Resolved s2.
Proof.
  revert s. induction l as [|y l IH]; intros s H Hx; [inversion Hx|].
  simpl in H. apply obind_inv in H as (s1 & H1 & H).
  apply elem_of_cons in Hx as [->|Hx]; [eauto | eapply IH; eassumption].
Qed.

Lemma omap_steps {A B} (f : A -> outcome B) (l : list A) r x :
  omap f l = Resolved r -> x ∈ l -> exists y, f x = Resolved y /\ y ∈ r.
Proof.
  revert r. induction l as [|a l IH]; intros r H Hx; [inversion Hx|].
  simpl in H. apply obind_inv in H as (b & Hb & H).
  apply obind_inv in H as (bs & Hbs & H). injection H as <-.
  apply elem_of_cons in Hx as [->|Hx].
  - exists b. split; [exact Hb | now left].
  - destruct (IH bs Hbs Hx) as (y & Hy & Hin). exists y. split; [exact Hy | now right].
Qed.


(** ** Quote rows: what ends up in the result *)









(** Rows that are not for this call leave [prices] and [keys] alone: a
    row of a kind other than ['a_req'], ['un'] and ['us'], and an
    ['a_req'] row whose first value does not start with the instrument
    id. *)
Theorem foreign_rows_ignored (issueId : string) (rows : list jsval) :
  Forall (fun r =>
            (exists m, js_get r "m" = Resolved (JStr m)
                       /\ m <> "a_req" /\ m <> "un" /\ m <> "us")
            \/ (exists s vs, js_get r "m" = Resolved (JStr "a_req")
                             /\ js_get r "v" = Resolved (JArr (JStr s :: vs))
                             /\ startsWith s issueId = false)) rows ->
  forall st, ofold (row_step issueId) st rows = Resolved st.
Proof.
  induction 1 as [|r rows Hr _ IH]; intros st; simpl; [reflexivity|].
  assert (Hstep : row_step issueId st r = Resolved st).
  { unfold row_step. destruct Hr as [(m & Hm & H1 & H2 & H3) | (s & vs & Hm & Hv & Hs)].
    - rewrite Hm. simpl.
      apply String.eqb_neq in H1, H2, H3. now rewrite H1, H2, H3.
    - rewrite Hm. simpl. rewrite Hv. simpl. now rewrite Hs. }
  rewrite Hstep. simpl. apply IH.
Qed.

Lemma foreign_rows_ignored_witness :
  ofold (row_step "350009261") (mkQuoteState ∅ ∅)
    [row "a_req" [JStr "1234.BidPrice"; JNum 5]; row "d" [JNum 5]]
  = Resolved (mkQuoteState ∅ ∅).
Proof.
  apply (foreign_rows_ignored "350009261"
           [row "a_req" [JStr "1234.BidPrice"; JNum 5]; row "d" [JNum 5]]).
  constructor; [|constructor; [|constructor]].
  - right. exists "1234.BidPrice", [JNum 5]. repeat split; reflexivity.
  - left. exists "d". repeat split; try reflexivity; discriminate.
Defined.

(** ** Cash funds, portfolio and orders *)







Lemma strict_getData_ok options w r rest data :
  inbox w = r :: rest -> ok r = true -> json r = Some data ->
  exists rq, Strict.getData options w
             = (Resolved data, mkWorld (session w) (urls w) (sent w ++ [rq]) rest (clock w)).
Proof.
  intros Hin Hok Hj. unfold Strict.getData.
  unfold bind at 1 2. unfold get_session, get_urls. simpl.
  eexists. apply (strict_exchange_ok _ w r rest data Hin Hok Hj).
Qed.

(** [getPortfolio] on an answer with a success status: it resolves to
    the array under [portfolio.value]; it rejects with "Bad result" and
    the whole payload when [portfolio] is missing (or falsy) or its
    [value] is not an array; and a body that is [null] makes it reject
    with a [TypeError] instead. *)
Theorem strict_getPortfolio_outcomes
    (w : World) (r : Response) (rest : list Response) (data : jsval) :
  inbox w = r :: rest -> ok r = true -> json r = Some data ->
  (forall p rows,
     js_get data "portfolio" = Resolved p -> truthy p = true ->
     js_get p "value" = Resolved (JArr rows) ->
     fst (Strict.getPortfolio w) = Resolved rows)
  /\ (forall p,
        js_get data "portfolio" = Resolved p ->
        truthy p = false
        \/ (exists v, js_get p "value" = Resolved v /\ isArray v = false) ->
        fst (Strict.getPortfolio w)
        = Rejected (Error [Lit "Bad result: "; Stringify data]))
  /\ (data = JNull -> fst (Strict.getPortfolio w) = Rejected TypeError).
Proof.
  intros Hin Hok Hj.
  destruct (strict_getData_ok [("portfolio", JNum 0)] w r rest data Hin Hok Hj) as (rq & Hd).
  unfold Strict.getPortfolio, bind. rewrite Hd. unfold lift, reshapePortfolio. simpl.
  repeat split.
  - intros p rows Hp Ht Hv. rewrite Hp. simpl. rewrite Ht, Hv. reflexivity.
  - intros p Hp [Ht | (v & Hv & Ha)]; rewrite Hp; simpl.
    + now rewrite Ht.
    + destruct (truthy p); [|reflexivity]. rewrite Hv. simpl.
      destruct v; try reflexivity. discriminate Ha.
  - intros ->. reflexivity.
Qed.

Lemma strict_getPortfolio_outcomes_witness :
  fst (Strict.getPortfolio (world0 [ok200 (JObj [("portfolio", JObj [])])]))
  = Rejected (Error [Lit "Bad result: "; Stringify (JObj [("portfolio", JObj [])])]).
Proof.
  apply (proj1 (proj2 (strict_getPortfolio_outcomes
                         (world0 [ok200 (JObj [("portfolio", JObj [])])])
                         _ [] (JObj [("portfolio", JObj [])]) eq_refl eq_refl eq_refl))
           (JObj []) eq_refl).
  right. exists JUndefined. split; reflexivity.
Defined.

(** [getOrders] on an answer with a success status whose body is an
    object: when [orders], [historicalOrders] and [transactions] each
    hold an array under [value], the three arrays are processed into
    [openOrders], [cancelledOrders] and [completedOrders] in that order;
    when one of them does not, the call rejects with "Bad result" and
    the whole payload. *)
Theorem strict_getOrders_outcomes
    (w : World) (r : Response) (rest : list Response) (fs : list (string * jsval)) :
  inbox w = r :: rest -> ok r = true -> json r = Some (JObj fs) ->
  (forall a b c o1 o2 o3,
     array_under (JObj fs) "orders" = Resolved (Some a) ->
     array_under (JObj fs) "historicalOrders" = Resolved (Some b) ->
     array_under (JObj fs) "transactions" = Resolved (Some c) ->
     processOrders (clock w) a = Resolved o1 ->
     processOrders (clock w) b = Resolved o2 ->
     processOrders (clock w) c = Resolved o3 ->
     fst (Strict.getOrders w) = Resolved (mkOrders o1 o2 o3))
  /\ (array_under (JObj fs) "orders" = Resolved None
      \/ array_under (JObj fs) "historicalOrders" = Resolved None
      \/ array_under (JObj fs) "transactions" = Resolved None ->
      fst (Strict.getOrders w) = Rejected (Error [Lit "Bad result: "; Stringify (JObj fs)])).
Proof.
  intros Hin Hok Hj.
  destruct (strict_getData_ok [("orders", JNum 0); ("historicalOrders", JNum 0);
                               ("transactions", JNum 0)] w r rest (JObj fs) Hin Hok Hj)
    as (rq & Hd).
  unfold Strict.getOrders, bind. rewrite Hd.
  unfold get_clock, lift. cbn [fst snd clock].
  unfold reshapeOrders. split.
  - intros a b c o1 o2 o3 Ha Hb Hc H1 H2 H3.
    rewrite Ha, Hb, Hc. cbn [obind]. rewrite H1, H2, H3. reflexivity.
  - assert (Hres : forall k, exists x, array_under (JObj fs) k = Resolved x).
    { intros k. unfold array_under. simpl.
      destruct (default JUndefined (obj_lookup k fs)) as [| |b|n|s|xs|fs']; simpl; eauto.
      - destruct b; simpl; eauto.
      - destruct (negb (n =? 0)); simpl; eauto.
      - destruct (negb (String.eqb s "")); simpl; eauto. }
    destruct (Hres "orders") as [a Ha], (Hres "historicalOrders") as [b Hb],
      (Hres "transactions") as [c Hc].
    rewrite Ha, Hb, Hc. cbn [obind].
    intros [H|[H|H]].
    + injection H as ->. reflexivity.
    + injection H as ->. destruct a; reflexivity.
    + injection H as ->. destruct a, b; reflexivity.
Qed.

Lemma strict_getOrders_outcomes_witness :
  fst (Strict.getOrders
         (world0 [ok200 (JObj [("orders", JObj [("value", JArr [])]);
                               ("historicalOrders", JObj [("value", JArr [])])])]))
  = Rejected (Error [Lit "Bad result: ";
                     Stringify (JObj [("orders", JObj [("value", JArr [])]);
                                      ("historicalOrders", JObj [("value", JArr [])])])]).
Proof.
  apply (proj2 (strict_getOrders_outcomes
                  (world0 [ok200 (JObj [("orders", JObj [("value", JArr [])]);
                                        ("historicalOrders", JObj [("value", JArr [])])])])
                  _ [] _ eq_refl eq_refl eq_refl)).
  right. right. reflexivity.
Defined.

Lemma orderRow_step_grows now o row o' k :
  orderRow_step now o row = Resolved o' -> is_Some (o !! k) -> is_Some (o' !! k).
Proof.
  unfold orderRow_step. intros H Hk.
  apply obind_inv in H as (name & _ & H). apply obind_inv in H as (value & _ & H).
  destruct (loose_eq_str name "date").
  - apply obind_inv in H as (d & _ & H). injection H as <-.
    rewrite lookup_insert. case_decide; [eauto | exact Hk].
  - injection H as <-. rewrite lookup_insert. case_decide; [eauto | exact Hk].
Qed.


(** [processOrders] returns one object for each order, and each of them
    has an [id]. *)
Theorem processOrders_one_per_order
    (now : Z) (orders : list jsval) (res : list (gmap string field)) :
  processOrders now orders = Resolved res ->
  length res = length orders /\ Forall (fun o => is_Some (o !! "id")) res.
Proof.
  unfold processOrders. intros H. split; [eapply omap_length, H|].
  eapply omap_Forall; [|exact H].
  intros order o Ho. unfold processOrder in Ho.
  apply obind_inv in Ho as (id & _ & Ho). apply obind_inv in Ho as (value & _ & Ho).
  destruct value; try discriminate Ho.
  eapply (ofold_invariant (orderRow_step now) (fun o => is_Some (o !! "id"))); [|exact Ho|].
  - intros s x s' _ Hx. now apply (orderRow_step_grows now s x s').
  - exists (FVal id). apply lookup_singleton_eq.
Qed.

Lemma processOrders_one_per_order_witness :
  length [ ({[ "id" := FVal (JNum 9) ]} : gmap string field) ] = length [JObj [("id", JNum 9); ("value", JArr [])]].
Proof.
  apply (processOrders_one_per_order now0 [JObj [("id", JNum 9); ("value", JArr [])]]
           [ {[ "id" := FVal (JNum 9) ]} ]).
  vm_compute. reflexivity.
Defined.

(** When [processOrders] resolves, every row named ['date'] of every
    order had a string value containing a colon or a slash: any other
    date value makes the whole call fail. *)
Theorem processOrders_accepts_two_date_formats
    (now : Z) (orders : list jsval) (res : list (gmap string field))
    (order : jsval) (rows : list jsval) (row : jsval) :
  processOrders now orders = Resolved res ->
  order ∈ orders -> js_get order "value" = Resolved (JArr rows) -> row ∈ rows ->
  js_get row "name" = Resolved (JStr "date") ->
  exists s, js_get row "value" = Resolved (JStr s)
            /\ (str_includes ":" s = true \/ str_includes "/" s = true).
Proof.
  unfold processOrders. intros H Ho Hv Hr Hn.
  destruct (omap_steps _ _ _ _ H Ho) as (o & Hpo & _).
  unfold processOrder in Hpo.
  apply obind_inv in Hpo as (id & _ & Hpo). rewrite Hv in Hpo. simpl in Hpo.
  destruct (ofold_steps _ _ _ _ _ Hpo Hr) as (s1 & s2 & Hstep).
  unfold orderRow_step in Hstep. rewrite Hn in Hstep. simpl in Hstep.
  apply obind_inv in Hstep as (value & Hval & Hstep). simpl in Hstep.
  apply obind_inv in Hstep as (d & Hd & _).
  unfold parseOrderDate in Hd. destruct value; try discriminate Hd.
  - exists s. split; [exact Hval|].
    destruct (str_includes ":" s); [now left|].
    destruct (str_includes "/" s); [now right | discriminate Hd].
  - destruct (arr_includes ":" xs); [discriminate Hd|].
    destruct (arr_includes "/" xs); discriminate Hd.
Qed.

Lemma processOrders_accepts_two_date_formats_witness :
  exists s, js_get (JObj [("name", JStr "date"); ("value", JStr "14:30")]) "value"
            = Resolved (JStr s)
            /\ (str_includes ":" s = true \/ str_includes "/" s = true).
Proof.
  assert (H : exists res,
             processOrders now0
               [JObj [("id", JNum 9);
                      ("value", JArr [JObj [("name", JStr "date"); ("value", JStr "14:30")]])]]
             = Resolved res) by (eexists; vm_compute; reflexivity).
  destruct H as [res H].
  apply (processOrders_accepts_two_date_formats now0 _ res _ _ _ H
           ltac:(left) eq_refl ltac:(left) eq_refl).
Defined.



(** ** The bootstrap sequence *)

Lemma strict_exchange_world rq w :
  session (snd (Strict.exchange rq w)) = session w
  /\ urls (snd (Strict.exchange rq w)) = urls w
  /\ sent (snd (Strict.exchange rq w)) = sent w ++ [rq]
  /\ inbox (snd (Strict.exchange rq w)) = tl (inbox w).
Proof.
  unfold Strict.exchange, bind, fetch, res_json, ret, throw, lift.
  destruct (inbox w) as [|r rest]; simpl; [auto|].
  destruct (json r); simpl; auto.
Qed.

Lemma loose_exchange_world rq w :
  session (snd (Loose.exchange rq w)) = session w
  /\ urls (snd (Loose.exchange rq w)) = urls w
  /\ sent (snd (Loose.exchange rq w)) = sent w ++ [rq]
  /\ inbox (snd (Loose.exchange rq w)) = tl (inbox w).
Proof.
  unfold Loose.exchange, bind, fetch, res_json, ret, throw.
  destruct (inbox w) as [|r rest]; simpl; [auto|].
  destruct (json r); simpl; auto.
Qed.

(** [updateConfig] assigns all six routing URLs or none: when it
    resolves (to [undefined]) they are the six properties of
    [json.data], when it rejects they are what they were; the session is
    never touched and exactly one request is sent. *)
Theorem updateConfig_all_or_nothing (w : World) :
  session (snd (Strict.updateConfig w)) = session w
  /\ length (sent (snd (Strict.updateConfig w))) = S (length (sent w))
  /\ (forall e w', Strict.updateConfig w = (Rejected e, w') -> urls w' = urls w)
  /\ (forall v w', Strict.updateConfig w = (Resolved v, w') ->
        v = JUndefined
        /\ exists r rest j d,
             inbox w = r :: rest /\ json r = Some j /\ js_get j "data" = Resolved d
             /\ js_get d "paUrl" = Resolved (Urls.paUrl (urls w'))
             /\ js_get d "productSearchUrl" = Resolved (Urls.productSearchUrl (urls w'))
             /\ js_get d "productTypesUrl" = Resolved (Urls.productTypesUrl (urls w'))
             /\ js_get d "reportingUrl" = Resolved (Urls.reportingUrl (urls w'))
             /\ js_get d "tradingUrl" = Resolved (Urls.tradingUrl (urls w'))
             /\ js_get d "vwdQuotecastServiceUrl"
                = Resolved (Urls.vwdQuotecastServiceUrl (urls w'))).
Proof.
  set (rq := mkRequest "GET" (BASE_TRADER_URL +:+ "/login/secure/config")
               [("Cookie", "JSESSIONID=" +:+ to_string (Session.id (session w)) +:+ ";")] None).
  assert (Hunf : Strict.updateConfig w
                 = match Strict.exchange rq w with
                   | (Resolved j, w1) =>
                       match js_get j "data" with
                       | Resolved d =>
                           match urlsOf d with
                           | Resolved u => (Resolved JUndefined, set_urls u w1)
                           | Rejected e => (Rejected e, w1)
                           end
                       | Rejected e => (Rejected e, w1)
                       end
                   | (Rejected e, w1) => (Rejected e, w1)
                   end).
  { unfold Strict.updateConfig, bind, get_session, lift, put_urls, ret. simpl. fold rq.
    destruct (Strict.exchange rq w) as [[j|e] w1]; [|reflexivity].
    destruct (js_get j "data") as [d|e]; simpl; [|reflexivity].
    destruct (urlsOf d); reflexivity. }
  rewrite Hunf. clear Hunf.
  destruct (strict_exchange_world rq w) as (Hs & Hu & Hsent & _).
  destruct (Strict.exchange rq w) as [[j|e] w1] eqn:E; simpl in Hs, Hu, Hsent; simpl.
  2:{ rewrite Hsent, length_app. simpl. split; [exact Hs|]. split; [lia|].
      split; [intros e' w' H; injection H as _ <-; exact Hu | intros v0 w0 H; discriminate H]. }
  apply strict_exchange_inv in E as (r & rest & Hin & _ & Hj & _).
  destruct (js_get j "data") as [d|e] eqn:Hd; simpl.
  2:{ rewrite Hsent, length_app. simpl. split; [exact Hs|]. split; [lia|].
      split; [intros e' w' H; injection H as _ <-; exact Hu | intros v0 w0 H; discriminate H]. }
  destruct (urlsOf d) as [u|e] eqn:Hurls; simpl.
  2:{ rewrite Hsent, length_app. simpl. split; [exact Hs|]. split; [lia|].
      split; [intros e' w' H; injection H as _ <-; exact Hu | intros v0 w0 H; discriminate H]. }
  rewrite Hsent, length_app. simpl. split; [exact Hs|]. split; [lia|].
  split; [intros e' w' H; discriminate H|].
  intros v0 w0 H. injection H as <- <-. split; [reflexivity|].
  exists r, rest, j, d. simpl.
  unfold urlsOf in Hurls.
  apply obind_inv in Hurls as (a & Ha & Hurls). apply obind_inv in Hurls as (b & Hb & Hurls).
  apply obind_inv in Hurls as (c & Hc & Hurls). apply obind_inv in Hurls as (d' & Hd' & Hurls).
  apply obind_inv in Hurls as (e & He & Hurls). apply obind_inv in Hurls as (f & Hf & Hurls).
  injection Hurls as <-. simpl. auto 12.
Qed.

(** [getClientInfo]: when it resolves, the account, the user token and
    the client info come from [json.data]; the validating build stores
    the client info under [session.data] and leaves [session.clientInfo]
    as it was, the looser build stores it under [session.clientInfo].
    The session id and the routing URLs are never touched, and a call
    that rejects leaves the whole session as it was. *)
Theorem getClientInfo_writes (w : World) :
  (forall d w', Strict.getClientInfo w = (Resolved d, w') ->
     urls w' = urls w
     /\ Session.id (session w') = Session.id (session w)
     /\ Session.clientInfo (session w') = Session.clientInfo (session w)
     /\ Session.data (session w') = d
     /\ js_get d "intAccount" = Resolved (Session.account (session w'))
     /\ js_get d "id" = Resolved (Session.userToken (session w')))
  /\ (forall d w', Loose.getClientInfo w = (Resolved d, w') ->
        urls w' = urls w
        /\ Session.id (session w') = Session.id (session w)
        /\ Session.clientInfo (session w') = d
        /\ Session.data (session w') = Session.data (session w)
        /\ js_get d "intAccount" = Resolved (Session.account (session w'))
        /\ js_get d "id" = Resolved (Session.userToken (session w')))
  /\ (forall e w', Strict.getClientInfo w = (Rejected e, w') \/
                   Loose.getClientInfo w = (Rejected e, w') ->
        session w' = session w /\ urls w' = urls w).
Proof.
  split; [|split].
  - unfold Strict.getClientInfo. intros d w' H.
    apply bind_inv in H as (s & w2 & Hs & H). inversion Hs; subst; clear Hs.
    apply bind_inv in H as (u & w9 & Hs & H). inversion Hs; subst; clear Hs.
    apply bind_inv in H as (j & w3 & Hx & H).
    apply strict_exchange_inv in Hx as (r & rest & Hin & _ & Hj & ->).
    apply bind_inv in H as (d0 & w4 & Hd & H). apply lift_inv in Hd as (Hd & ->).
    apply bind_inv in H as (a & w5 & Ha & H). apply lift_inv in Ha as (Ha & ->).
    apply bind_inv in H as (i & w6 & Hi & H). apply lift_inv in Hi as (Hi & ->).
    apply bind_inv in H as (x & w7 & Hm & H). inversion Hm; subst; clear Hm.
    inversion H; subst. simpl. auto 10.
  - unfold Loose.getClientInfo. intros d w' H.
    apply bind_inv in H as (s & w2 & Hs & H). inversion Hs; subst; clear Hs.
    apply bind_inv in H as (u & w9 & Hs & H). inversion Hs; subst; clear Hs.
    apply bind_inv in H as (j & w3 & Hx & H).
    apply loose_exchange_inv in Hx as (r & rest & Hin & Hj & ->).
    apply bind_inv in H as (d0 & w4 & Hd & H). apply lift_inv in Hd as (Hd & ->).
    apply bind_inv in H as (a & w5 & Ha & H). apply lift_inv in Ha as (Ha & ->).
    apply bind_inv in H as (i & w6 & Hi & H). apply lift_inv in Hi as (Hi & ->).
    apply bind_inv in H as (x & w7 & Hm & H). inversion Hm; subst; clear Hm.
    inversion H; subst. simpl. auto 10.
  - intros e w' [H|H].
    + unfold Strict.getClientInfo in H. unfold bind at 1 2 in H.
      unfold get_session, get_urls in H. simpl in H.
      revert H. set (rq := GET _).
      destruct (strict_exchange_world rq w) as (Hs & Hu & _).
      unfold bind at 1.
      destruct (Strict.exchange rq w) as [[j|e0] w1]; simpl in Hs, Hu.
      2:{ intros H. injection H as _ <-. auto. }
      unfold bind, lift, modify_session, ret.
      destruct (js_get j "data") as [d|]; simpl; [|intros H; injection H as _ <-; auto].
      destruct (js_get d "intAccount"); simpl; [|intros H; injection H as _ <-; auto].
      destruct (js_get d "id"); simpl; [|intros H; injection H as _ <-; auto].
      intros H. discriminate H.
    + unfold Loose.getClientInfo in H. unfold bind at 1 2 in H.
      unfold get_session, get_urls in H. simpl in H.
      revert H. set (rq := GET _).
      destruct (loose_exchange_world rq w) as (Hs & Hu & _).
      unfold bind at 1.
      destruct (Loose.exchange rq w) as [[j|e0] w1]; simpl in Hs, Hu.
      2:{ intros H. injection H as _ <-. auto. }
      unfold bind, lift, modify_session, ret.
      destruct (js_get j "data") as [d|]; simpl; [|intros H; injection H as _ <-; auto].
      destruct (js_get d "intAccount"); simpl; [|intros H; injection H as _ <-; auto].
      destruct (js_get d "id"); simpl; [|intros H; injection H as _ <-; auto].
      intros H. discriminate H.
Qed.

Lemma getClientInfo_writes_witness :
  Session.clientInfo
    (session (snd (Strict.getClientInfo (world0 [ok200 (JObj [("data", JObj [("id", JNum 7); ("intAccount", JNum 42)])])]))))
  = Session.clientInfo session0.
Proof.
  assert (H : exists d w',
             Strict.getClientInfo (world0 [ok200 (JObj [("data", JObj [("id", JNum 7); ("intAccount", JNum 42)])])])
             = (Resolved d, w')) by (eexists; eexists; reflexivity).
  destruct H as (d & w' & H). rewrite H.
  exact (proj1 (proj2 (proj2 (proj1 (getClientInfo_writes _) d w' H)))).
Defined.

Lemma updateConfig_all_or_nothing_witness :
  urls (snd (Strict.updateConfig (world0 [mkResponse 500 "Server Error" [] (Some JNull)]))) = urls0.
Proof.
  assert (H : exists e w',
             Strict.updateConfig (world0 [mkResponse 500 "Server Error" [] (Some JNull)])
             = (Rejected e, w')) by (eexists; eexists; reflexivity).
  destruct H as (e & w' & H). rewrite H.
  exact (proj1 (proj2 (proj2 (updateConfig_all_or_nothing _))) e w' H).
Defined.

Lemma strict_updateConfig_sent w :
  exists rq, sent (snd (Strict.updateConfig w)) = sent w ++ [rq].
Proof.
  unfold Strict.updateConfig, bind, get_session, lift, put_urls, ret. simpl.
  set (rq := mkRequest _ _ _ _). exists rq.
  destruct (strict_exchange_world rq w) as (_ & _ & Hsent & _).
  destruct (Strict.exchange rq w) as [[j|e] w1]; simpl in *; [|exact Hsent].
  destruct (js_get j "data") as [d|]; simpl; [|exact Hsent].
  destruct (urlsOf d); simpl; exact Hsent.
Qed.

Lemma strict_getClientInfo_sent w :
  exists rq, sent (snd (Strict.getClientInfo w)) = sent w ++ [rq].
Proof.
  unfold Strict.getClientInfo, bind, get_session, get_urls, lift, modify_session, ret. simpl.
  set (rq := GET _). exists rq.
  destruct (strict_exchange_world rq w) as (_ & _ & Hsent & _).
  destruct (Strict.exchange rq w) as [[j|e] w1]; simpl in *; [|exact Hsent].
  destruct (js_get j "data") as [d|]; simpl; [|exact Hsent].
  destruct (js_get d "intAccount"); simpl; [|exact Hsent].
  destruct (js_get d "id"); simpl; exact Hsent.
Qed.

Lemma strict_login_unfold o w :
  Strict.login o w
  = Strict.sendLoginRequest (url (loginRequest o))
      (default JNull (body (loginRequest o))) w
  /\ loginRequest o
     = mkRequest "POST" (url (loginRequest o)) [("Content-Type", "application/json")]
         (Some (default JNull (body (loginRequest o)))).
Proof. unfold Strict.login, loginRequest. destruct (truthy (oneTimePassword o)); auto. Qed.

Lemma fetch_sent rq w : sent (snd (fetch rq w)) = sent w ++ [rq].
Proof. unfold fetch. destruct (inbox w); reflexivity. Qed.

(** [login] sends between one and three requests, the first of them the
    login request (to the [/totp] path and with the one-time password in
    the body exactly when one is configured), and all three, for the
    login, the configuration and the client info, when it resolves. *)
Theorem strict_login_requests (o : Options) (w : World) :
  exists more,
    sent (snd (Strict.login o w)) = sent w ++ loginRequest o :: more
    /\ (length more <= 2)%nat
    /\ (is_resolved (fst (Strict.login o w)) = true -> length more = 2%nat).
Proof.
  destruct (strict_login_unfold o w) as (-> & Hrq).
  remember (url (loginRequest o)) as u eqn:Eu.
  remember (default JNull (body (loginRequest o))) as b eqn:Eb.
  rewrite Hrq. clear Hrq Eu Eb.
  remember (Strict.sendLoginRequest u b w) as res eqn:E. symmetry in E.
  unfold Strict.sendLoginRequest in E.
  unfold bind at 1 in E.
  pose proof (fetch_sent (mkRequest "POST" u [("Content-Type", "application/json")] (Some b)) w)
    as Hw1.
  destruct (fetch _ w) as [[r|e] w1]; cbn [fst snd] in *.
  2:{ subst res. exists []. cbn [fst snd]. rewrite Hw1.
      split; [reflexivity|split; [simpl; lia | intros Hres; discriminate Hres]]. }
  unfold bind at 1 in E. unfold res_json in E.
  destruct (json r) as [j|]; unfold ret, throw in E; cbv beta iota zeta in E.
  2:{ subst res. exists []. cbn [fst snd]. rewrite Hw1.
      split; [reflexivity|split; [simpl; lia | intros Hres; discriminate Hres]]. }
  unfold bind at 1 in E. unfold modify_session in E. cbv beta iota zeta in E.
  remember (set_session (set_id (cookie "JSESSIONID" (cookies r))) w1) as w2 eqn:Ew2.
  assert (Hw2 : sent w2 = sent w1) by (subst w2; reflexivity). clear Ew2.
  unfold bind at 1 in E. unfold lift in E.
  destruct (Strict.checkSuccess r j); cbv beta iota zeta in E.
  2:{ subst res. exists []. cbn [fst snd]. rewrite Hw2, Hw1.
      split; [reflexivity|split; [simpl; lia | intros Hres; discriminate Hres]]. }
  unfold bind at 1 in E. unfold get_session in E. cbv beta iota zeta in E.
  unfold bind at 1 in E.
  destruct (truthy (Session.id (session w2))); unfold ret, throw in E; cbv beta iota zeta in E.
  2:{ subst res. exists []. cbn [fst snd]. rewrite Hw2, Hw1.
      split; [reflexivity|split; [simpl; lia | intros Hres; discriminate Hres]]. }
  unfold bind at 1 in E.
  destruct (strict_updateConfig_sent w2) as (rq2 & H2).
  destruct (Strict.updateConfig w2) as [[v|e] w3]; cbn [fst snd] in *.
  2:{ subst res. exists [rq2]. cbn [fst snd]. rewrite H2, Hw2, Hw1, <- app_assoc.
      split; [reflexivity|split; [simpl; lia | intros Hres; discriminate Hres]]. }
  unfold bind at 1 in E.
  destruct (strict_getClientInfo_sent w3) as (rq3 & H3).
  destruct (Strict.getClientInfo w3) as [[d|e] w4]; cbn [fst snd] in *;
    subst res; exists [rq2; rq3]; cbn [fst snd];
    rewrite H3, H2, Hw2, Hw1, <- !app_assoc;
    (split; [reflexivity|split; [simpl; lia | intros Hres; reflexivity]]).
Qed.

Lemma strict_login_requests_witness :
  exists more,
    sent (snd (Strict.login opts0 (create opts0 [authorized; ok200 config0; ok200 client0] now0)))
    = loginRequest opts0 :: more /\ length more = 2%nat.
Proof.
  destruct (strict_login_requests opts0
              (create opts0 [authorized; ok200 config0; ok200 client0] now0))
    as (more & Hsent & _ & Hres).
  exists more. split; [exact Hsent | apply Hres; reflexivity].
Defined.

(** A login that fails on its first answer sends that one request only,
    leaves the routing URLs alone, and has by then overwritten
    [session.id] with the session cookie of the failed answer
    ([undefined] when it set none), whatever the id was before. *)
Theorem strict_failed_login_overwrites_id
    (o : Options) (w : World) (r : Response) (rest : list Response) (j : jsval) :
  inbox w = r :: rest -> json r = Some j ->
  truthy (cookie "JSESSIONID" (cookies r)) = false \/ ok r = false ->
  let w' := snd (Strict.login o w) in
  is_resolved (fst (Strict.login o w)) = false
  /\ sent w' = sent w ++ [loginRequest o]
  /\ inbox w' = rest
  /\ urls w' = urls w
  /\ Session.id (session w') = cookie "JSESSIONID" (cookies r).
Proof.
  intros Hin Hj Hbad w'. subst w'.
  destruct (strict_login_unfold o w) as (-> & Hrq).
  remember (url (loginRequest o)) as u eqn:Eu.
  remember (default JNull (body (loginRequest o))) as b eqn:Eb.
  rewrite Hrq. clear Hrq Eu Eb.
  remember (Strict.sendLoginRequest u b w) as res eqn:E. symmetry in E.
  unfold Strict.sendLoginRequest in E.
  rewrite (bind_resolved _ _ _ _ _ (fetch_cons _ w r rest Hin)) in E.
  unfold bind at 1 in E. unfold res_json in E. rewrite Hj in E.
  unfold ret in E. cbv beta iota zeta in E.
  unfold bind at 1 in E. unfold modify_session in E. cbv beta iota zeta in E.
  unfold bind at 1 in E. unfold lift in E.
  destruct (Strict.checkSuccess r j) eqn:Hc; cbv beta iota zeta in E.
  - unfold bind at 1 in E. unfold get_session in E. cbv beta iota zeta in E.
    unfold bind at 1 in E. cbn [set_session session Session.id set_id] in E.
    destruct Hbad as [Hno|Hok].
    + rewrite Hno in E. unfold throw in E. cbv beta iota zeta in E.
      subst res. simpl. auto.
    + destruct (strict_checkSuccess_not_ok r j Hok) as [e He]. congruence.
  - subst res. simpl. auto.
Qed.

Lemma strict_failed_login_overwrites_id_witness :
  Session.id (session (snd (Strict.login opts0
                              (world0 [mkResponse 401 "Unauthorized" [] (Some JNull)]))))
  = JUndefined.
Proof.
  apply (strict_failed_login_overwrites_id opts0
           (world0 [mkResponse 401 "Unauthorized" [] (Some JNull)])
           _ [] JNull eq_refl eq_refl (or_introl eq_refl)).
Defined.

(** ** Orders and products *)

Lemma strict_checkOrder_sent fs w :
  sent (snd (Strict.checkOrder (JObj fs) w))
  = sent w ++ [mkRequest "POST" (trading_url (session w) (urls w) "v5/checkOrder")
                 json_headers (Some (JObj fs))].
Proof.
  unfold Strict.checkOrder.
  unfold bind at 1. cbn [lift js_get].
  unfold bind at 1 2. unfold get_session, get_urls. cbn [fst snd].
  set (rq := mkRequest _ _ _ _).
  unfold bind at 1. pose proof (strict_exchange_sent rq w) as Hs.
  destruct (Strict.exchange rq w) as [[j|e] w1]; cbn [fst snd] in *; [|exact Hs].
  unfold bind, lift, ret. destruct (js_get j "data") as [d|]; cbn [fst snd]; [|exact Hs].
  destruct (js_get d "confirmationId"); exact Hs.
Qed.

(** When [checkOrder] rejects, [setOrder] rejects with the same error
    and [confirmOrder] is not called: the check is the only request
    sent. *)
Theorem strict_setOrder_stops_at_failed_check
    (K : Constants) (arg o : jsval) (w : World) (e : exn) (w1 : World) :
  orderOf K arg = Resolved o ->
  Strict.checkOrder o w = (Rejected e, w1) ->
  Strict.setOrder K arg w = (Rejected e, w1)
  /\ sent w1 = sent w ++ [mkRequest "POST" (trading_url (session w) (urls w) "v5/checkOrder")
                            json_headers (Some o)].
Proof.
  intros Ho Hc. split.
  - unfold Strict.setOrder. unfold bind at 1. unfold lift. rewrite Ho.
    apply bind_rejected, Hc.
  - destruct (orderOf_object K arg o Ho) as [fs ->].
    pose proof (strict_checkOrder_sent fs w) as Hs. rewrite Hc in Hs. exact Hs.
Qed.

Lemma strict_setOrder_stops_at_failed_check_witness :
  exists e w1,
    Strict.setOrder K0 (JObj [("buySell", JNum 0); ("productId", JStr "8066561"); ("size", JNum 1)])
      (world0 [mkResponse 400 "Bad Request" [] (Some (JObj []))])
    = (Rejected e, w1)
    /\ length (sent w1) = 1%nat.
Proof.
  assert (Ho : exists o, orderOf K0 (JObj [("buySell", JNum 0); ("productId", JStr "8066561");
                                           ("size", JNum 1)]) = Resolved o)
    by (eexists; reflexivity).
  destruct Ho as [o Ho].
  assert (Hc : exists e w1, Strict.checkOrder o (world0 [mkResponse 400 "Bad Request" []
                                                           (Some (JObj []))])
                            = (Rejected e, w1)).
  { injection Ho as <-. eexists. eexists. reflexivity. }
  destruct Hc as (e & w1 & Hc). exists e, w1.
  destruct (strict_setOrder_stops_at_failed_check K0 _ o _ e w1 Ho Hc) as [Hset Hsent].
  split; [exact Hset|]. rewrite Hsent. reflexivity.
Defined.

(** The order [setOrder] submits has the seven known properties and no
    other: [timeType] is [TimeTypes.day] when the caller gave none and
    the caller's value otherwise, the other six are the caller's, and
    any further property of the argument is dropped.  Only [null] and
    [undefined] arguments make it throw. *)
Theorem orderOf_seven_properties (K : Constants) (arg : jsval) :
  (isNil arg = true -> orderOf K arg = Rejected TypeError)
  /\ (isNil arg = false ->
      exists o,
        orderOf K arg = Resolved o
        /\ (js_get arg "timeType" = Resolved JUndefined ->
            js_get o "timeType" = Resolved (TimeTypes_day K))
        /\ (forall t, js_get arg "timeType" = Resolved t -> t <> JUndefined ->
            js_get o "timeType" = Resolved t)
        /\ (forall k, k ∈ ["buySell"; "orderType"; "productId"; "size"; "price"; "stopPrice"] ->
            js_get o k = js_get arg k)
        /\ (forall k, k ∉ ["buySell"; "orderType"; "productId"; "size"; "timeType"; "price";
                           "stopPrice"] ->
            js_get o k = Resolved JUndefined)).
Proof.
  split.
  - destruct arg; try discriminate; reflexivity.
  - intros Hnil.
    assert (Hget : forall k, exists v, js_get arg k = Resolved v)
      by (intros k; destruct arg; try discriminate Hnil; simpl; eauto).
    destruct (Hget "buySell") as [v1 H1], (Hget "orderType") as [v2 H2],
      (Hget "productId") as [v3 H3], (Hget "size") as [v4 H4], (Hget "timeType") as [v5 H5],
      (Hget "price") as [v6 H6], (Hget "stopPrice") as [v7 H7].
    eexists. split.
    { unfold orderOf. rewrite H1, H2, H3, H4, H5, H6, H7. reflexivity. }
    split; [|split; [|split]].
    + intros Hu. rewrite H5 in Hu. injection Hu as ->. reflexivity.
    + intros t Ht Hne. rewrite H5 in Ht. injection Ht as ->.
      destruct t; try reflexivity. contradiction.
    + intros k Hk.
      repeat (apply elem_of_cons in Hk as [->|Hk];
              [first [now rewrite H1 | now rewrite H2 | now rewrite H3
                     | now rewrite H4 | now rewrite H6 | now rewrite H7]|]).
      inversion Hk.
    + intros k Hk. simpl.
      repeat match goal with
             | |- context [String.eqb k ?s] =>
                 destruct (String.eqb_spec k s) as [->|?];
                 [exfalso; apply Hk; set_solver|]
             end.
      reflexivity.
Qed.

Lemma orderOf_seven_properties_witness :
  exists o,
    orderOf K0 (JObj [("buySell", JNum 0); ("productId", JStr "8066561"); ("note", JStr "x")])
    = Resolved o
    /\ js_get o "timeType" = Resolved (JNum 1).
Proof.
  destruct (proj2 (orderOf_seven_properties K0
                     (JObj [("buySell", JNum 0); ("productId", JStr "8066561");
                            ("note", JStr "x")])) eq_refl)
    as (o & Ho & Hday & _).
  exists o. split; [exact Ho | apply Hday; reflexivity].
Defined.

Lemma id_toString_all (ids : list jsval) :
  Forall (fun id => isNil id = false) ids ->
  omap id_toString ids = Resolved (map (fun id => JStr (to_string id)) ids).
Proof.
  induction 1 as [|id ids Hid _ IH]; simpl; [reflexivity|].
  rewrite IH. destruct id; try discriminate Hid; reflexivity.
Qed.

Lemma id_toString_some_nil (ids : list jsval) :
  Exists (fun id => isNil id = true) ids -> omap id_toString ids = Rejected TypeError.
Proof.
  induction 1 as [id ids Hid | id ids _ IH]; simpl.
  - destruct id; try discriminate Hid; reflexivity.
  - rewrite IH. destruct id; reflexivity.
Qed.

(** [getProductsByIds] sends one POST whose body is the array of the
    ids converted to strings, a single id counting as a one-element
    array; an id that is [null] or [undefined] makes it throw before
    anything is sent. *)
Theorem strict_getProductsByIds_request (ids : jsval) (w : World) :
  (Forall (fun id => isNil id = false) (idsOf ids) ->
   sent (snd (Strict.getProductsByIds ids w)) = sent w ++ [productsRequest w (idsOf ids)])
  /\ (Exists (fun id => isNil id = true) (idsOf ids) ->
      Strict.getProductsByIds ids w = (Rejected TypeError, w))
  /\ (isArray ids = false -> idsOf ids = [ids]).
Proof.
  unfold Strict.getProductsByIds, bind, get_session, get_urls, lift. cbn [fst snd].
  repeat split.
  - intros Hall. rewrite (id_toString_all _ Hall). apply strict_exchange_sent.
  - intros Hex. now rewrite (id_toString_some_nil _ Hex).
  - intros Harr. destruct ids; try reflexivity. discriminate Harr.
Qed.

Lemma strict_getProductsByIds_request_witness :
  sent (snd (Strict.getProductsByIds (JNum 8066561) (world0 [])))
  = [productsRequest (world0 []) [JNum 8066561]].
Proof.
  apply (proj1 (strict_getProductsByIds_request (JNum 8066561) (world0 []))).
  constructor; [reflexivity | constructor].
Defined.

(** ** The looser build: what never happens, and what is not checked *)

Lemma loose_checkOrder_rejected order w :
  is_resolved (fst (Loose.checkOrder order w)) = false
  /\ (length (sent (snd (Loose.checkOrder order w))) <= S (length (sent w)))%nat.
Proof.
  remember (Loose.checkOrder order w) as res eqn:E. symmetry in E.
  unfold Loose.checkOrder in E. unfold bind at 1 in E. unfold lift in E.
  destruct (js_get order "buySell"); [|subst res; simpl; split; [reflexivity | lia]].
  cbv beta iota zeta in E. unfold bind at 1 2 in E. unfold get_session, get_urls in E.
  cbv beta iota zeta in E. unfold bind at 1 in E.
  match type of E with
  | context [Loose.exchange ?rq w] =>
      pose proof (loose_exchange_sent rq w) as Hs;
      destruct (Loose.exchange rq w) as [[j|e] w1]
  end; cbn [fst snd] in Hs; unfold bind, lift, log in E; simpl in E; subst res; simpl;
    (split; [reflexivity | rewrite Hs, length_app; simpl; lia]).
Qed.

(** In the looser build an order is never placed: [setOrder] never
    resolves and never gets as far as the confirmation request, and
    [confirmOrder] called on its own never resolves either. *)
Theorem loose_setOrder_never_confirms (K : Constants) (arg : jsval) (c : CheckedOrder) (w : World) :
  is_resolved (fst (Loose.setOrder K arg w)) = false
  /\ (length (sent (snd (Loose.setOrder K arg w))) <= S (length (sent w)))%nat
  /\ is_resolved (fst (Loose.confirmOrder c w)) = false.
Proof.
  split; [|split].
  - unfold Loose.setOrder. unfold bind at 1. unfold lift.
    destruct (orderOf K arg) as [o|]; [|reflexivity].
    unfold bind. destruct (loose_checkOrder_rejected o w) as [H _].
    destruct (Loose.checkOrder o w) as [[x|e] w1]; [discriminate H | reflexivity].
  - unfold Loose.setOrder. unfold bind at 1. unfold lift.
    destruct (orderOf K arg) as [o|]; [|simpl; lia].
    unfold bind. destruct (loose_checkOrder_rejected o w) as [H Hs].
    destruct (Loose.checkOrder o w) as [[x|e] w1]; [discriminate H | exact Hs].
  - unfold Loose.confirmOrder. unfold bind at 1. unfold lift.
    destruct (js_get (order c) "buySell"); [|reflexivity].
    unfold bind at 1 2. unfold get_session, get_urls. cbn [fst snd].
    unfold bind at 1. destruct (Loose.exchange _ w) as [[j|e] w1]; reflexivity.
Qed.

(** [searchProduct] sends the same request in both builds.  The looser
    build resolves to whatever JSON body comes back, whatever the HTTP
    status; the validating build resolves to it under a success status
    and rejects otherwise. *)
Theorem searchProduct_validation
    (K : Constants) (arg : jsval) (w : World) (r : Response) (rest : list Response)
    (body : jsval) :
  isNil arg = false -> inbox w = r :: rest -> json r = Some body ->
  fst (Loose.searchProduct K arg w) = Resolved body
  /\ (ok r = true -> fst (Strict.searchProduct K arg w) = Resolved body)
  /\ (ok r = false -> exists e, fst (Strict.searchProduct K arg w) = Rejected e)
  /\ sent (snd (Loose.searchProduct K arg w)) = sent (snd (Strict.searchProduct K arg w))
  /\ length (sent (snd (Strict.searchProduct K arg w))) = S (length (sent w)).
Proof.
  intros Hnil Hin Hj.
  assert (Ho : exists options, searchOptions K arg = Resolved options).
  { unfold searchOptions. destruct arg; try discriminate Hnil; simpl; eauto. }
  destruct Ho as [options Ho].
  unfold Loose.searchProduct, Strict.searchProduct, bind, get_session, get_urls, lift.
  rewrite Ho. cbn [fst snd]. set (rq := GET _).
  rewrite (loose_exchange_json rq w r rest body Hin Hj). unfold ret. cbn [fst snd].
  split; [reflexivity|]. split; [|split; [|split]].
  - intros Hok. now rewrite (strict_exchange_ok rq w r rest body Hin Hok Hj).
  - intros Hok. apply (strict_exchange_not_ok rq w r rest body Hin Hok Hj).
  - now rewrite strict_exchange_sent.
  - rewrite strict_exchange_sent, length_app. simpl. lia.
Qed.

Lemma searchProduct_validation_witness :
  fst (Loose.searchProduct K0 (JObj [("text", JStr "NFLX")])
         (world0 [mkResponse 500 "Server Error" [] (Some (JObj [("errors", JArr [])]))]))
  = Resolved (JObj [("errors", JArr [])]).
Proof.
  apply (searchProduct_validation K0 (JObj [("text", JStr "NFLX")])
           (world0 [mkResponse 500 "Server Error" [] (Some (JObj [("errors", JArr [])]))])
           _ [] (JObj [("errors", JArr [])]) eq_refl eq_refl eq_refl).
Defined.

(** The operations of the looser build outside the bootstrap sequence
    leave the session record and the routing-URL record as they were. *)
Theorem loose_operations_preserve_session_and_urls (K : Constants) :
  (forall arg, frame (Loose.searchProduct K arg))
  /\ (forall options, frame (Loose.getData options))
  /\ frame Loose.getCashFunds
  /\ frame Loose.getPortfolio
  /\ frame Loose.getOrders
  /\ (forall issueId timesChecked, frame (Loose.getAskBidPrice issueId timesChecked))
  /\ (forall order, frame (Loose.checkOrder order))
  /\ (forall c, frame (Loose.confirmOrder c))
  /\ (forall arg, frame (Loose.setOrder K arg))
  /\ (forall orderId, frame (Loose.deleteOrder orderId))
  /\ (forall ids, frame (Loose.getProductsByIds ids)).
Proof.
  assert (Hd : forall options, frame (Loose.getData options))
    by (intros; unfold Loose.getData; repeat frame_step).
  assert (Hc : forall order, frame (Loose.checkOrder order))
    by (intros; unfold Loose.checkOrder; repeat frame_step).
  assert (Hf : forall c, frame (Loose.confirmOrder c))
    by (intros; unfold Loose.confirmOrder; repeat frame_step).
  repeat match goal with |- _ /\ _ => split end; intros;
    try match goal with |- frame (Loose.getAskBidPrice _ _) =>
          apply frame_askBid, frame_loose_round end;
    try (unfold Loose.searchProduct, Loose.getCashFunds, Loose.getPortfolio, Loose.getOrders,
           Loose.setOrder, Loose.deleteOrder, Loose.getProductsByIds;
         repeat (frame_step || apply Hd || apply Hc || apply Hf)).
Qed.

(** ** The reporting operations of the validating build *)

(** [getTasks], [getOrdersHistory] and [getTransactions] each send one
    GET request without headers or body, take one answer, and, when its
    body is JSON, resolve to that body under a success status and reject
    under any other, whatever the body says. *)
Theorem strict_reporting_by_http_status
    (fromDate toDate groupByOrder : jsval) (op : M jsval)
    (w : World) (r : Response) (rest : list Response) (body : jsval) :
  op ∈ [Strict.getTasks; Strict.getOrdersHistory fromDate toDate;
        Strict.getTransactions fromDate toDate groupByOrder] ->
  inbox w = r :: rest -> json r = Some body ->
  (ok r = true -> fst (op w) = Resolved body)
  /\ (ok r = false -> is_resolved (fst (op w)) = false)
  /\ inbox (snd (op w)) = rest
  /\ exists u, sent (snd (op w)) = sent w ++ [GET u].
Proof.
  intros Hop Hin Hj.
  assert (Hx : exists u, op w = Strict.exchange (GET u) w).
  { repeat (apply elem_of_cons in Hop as [->|Hop]); [| | |inversion Hop];
      eexists; reflexivity. }
  destruct Hx as [u ->].
  split; [|split; [|split]].
  - intros Hok. now rewrite (strict_exchange_ok _ w r rest body Hin Hok Hj).
  - intros Hok. destruct (strict_exchange_not_ok (GET u) w r rest body Hin Hok Hj) as [e ->].
    reflexivity.
  - destruct (strict_exchange_world (GET u) w) as (_ & _ & _ & ->). now rewrite Hin.
  - exists u. apply strict_exchange_sent.
Qed.

Lemma strict_reporting_by_http_status_witness :
  is_resolved
    (fst (Strict.getOrdersHistory (JStr "01/10/2026") (JStr "02/11/2026")
            (world0 [mkResponse 503 "Service Unavailable" [] (Some (JObj [("data", JArr [])]))])))
  = false.
Proof.
  apply (proj1 (proj2 (strict_reporting_by_http_status
                         (JStr "01/10/2026") (JStr "02/11/2026") JUndefined
                         (Strict.getOrdersHistory (JStr "01/10/2026") (JStr "02/11/2026"))
                         (world0 [mkResponse 503 "Service Unavailable" []
                                    (Some (JObj [("data", JArr [])]))])
                         _ [] (JObj [("data", JArr [])])
                         ltac:(right; left) eq_refl eq_refl))).
  reflexivity.
Defined.
